(** * conn_process.go: the response-stream processor of the ClickHouse client

    A shallow embedding of [firstBlock], [process], [handle] and [cancel]
    (methods of [*connect] in conn_process.go) and the properties of the
    dispatch loops, the packet handler and the cancellation protocol.

    The four functions are effectful: they read from the connection, call
    payload decoders, take a mutex, invoke caller callbacks and may panic.
    They are written here in a small state monad over a [world] that holds
    the fields of [connect] the file touches, the caller's state and a
    chronological trace of every observable step. *)

From Stdlib Require Import ZArith NArith List String Ascii Strings.Byte Bool Lia DecimalString.
Import ListNotations.
Local Open Scope list_scope.

Set Implicit Arguments.

(** ** Go values *)

(** A Go pointer: [None] is the nil pointer. *)
Definition ptr (A : Type) : Type := option A.

(** The [error] values the file builds or passes on.  A Go [error] that may
    be nil is an [option error]; [None] is nil.  [io_EOF] is the identity of
    the package-level value [io.EOF]; [errorString] is an error made by
    [errors.New] or [fmt.Errorf]; [OpError] is [&OpError{Op: .., Err: ..}]. *)
Inductive error : Type :=
| io_EOF
| errorString (s : string)
| OpError (Op : string) (Err : error).

(** [%d] of an unsigned integer. *)
Definition fmt_d (n : N) : string := NilZero.string_of_uint (N.to_uint n).

(** [fmt.Sprintf(format, arg)] for a format with one [%d] verb. *)
Fixpoint Sprintf_d (format : string) (arg : N) : string :=
  match format with
  | EmptyString => EmptyString
  | String "%" (String "d" rest) => append (fmt_d arg) rest
  | String ch rest => String ch (Sprintf_d rest arg)
  end.

(** [fmt.Errorf(format, packet)] with [packet] a byte. *)
Definition fmt_Errorf (format : string) (packet : byte) : error :=
  errorString (Sprintf_d format (Byte.to_N packet)).

(** [context.Context].  The context is cancelled asynchronously; the model
    fixes, per context, the moment from which it is cancelled, measured on
    the logical clock of the world (the number of steps traced so far).
    Once cancelled a context stays cancelled with the same reason. *)
Inductive Context : Type :=
| Background
| CancelledAt (t : nat) (reason : error).

(** ** The packet vocabulary (package proto, outside this file)

    The constants of [proto] are taken as parameters.  They are an
    enumeration of distinct wire values; Go also rejects a switch with two
    equal constant cases. *)
Class Proto : Type := {
  ServerData : byte;
  ServerTotals : byte;
  ServerExtremes : byte;
  ServerException : byte;
  ServerProfileInfo : byte;
  ServerTableColumns : byte;
  ServerProfileEvents : byte;
  ServerLog : byte;
  ServerProgress : byte;
  ServerEndOfStream : byte;
  ClientCancel : N;
  server_tags_distinct :
    NoDup [ServerData; ServerTotals; ServerExtremes; ServerException;
           ServerProfileInfo; ServerTableColumns; ServerProfileEvents;
           ServerLog; ServerProgress; ServerEndOfStream]
}.

(** The ten tags the server may send. *)
Definition server_tags {P : Proto} : list byte :=
  [ServerData; ServerTotals; ServerExtremes; ServerException;
   ServerProfileInfo; ServerTableColumns; ServerProfileEvents;
   ServerLog; ServerProgress; ServerEndOfStream].

(** ** The collaborators of [connect] (other files of the package)

    [Env] is everything the collaborators own: the buffered reader, the
    write buffer, the socket.  Each collaborator is a function on [Env]
    returning what the Go method returns.  They are assumed to return, and
    not to touch [rwLock]. *)
Class Driver : Type := {
  Env : Type;
  Block : Type;
  ProfileInfo : Type;
  TableColumns : Type;
  ProfileEvent : Type;
  Log : Type;
  Progress : Type;
  (** [Rows()] of a block pointer, a Go [int]; the receiver may be nil *)
  Block_Rows : ptr Block -> Z;
  (** [c.reader.ReadByte()] *)
  reader_ReadByte : Env -> (byte * option error) * Env;
  (** [c.readData(ctx, packet, compressible)] *)
  conn_readData : Context -> byte -> bool -> Env -> (ptr Block * option error) * Env;
  (** [c.exception()] *)
  conn_exception : Env -> option error * Env;
  (** [info.Decode(c.reader, c.revision)] on a fresh [proto.ProfileInfo] *)
  ProfileInfo_Decode : N -> Env -> (ProfileInfo * option error) * Env;
  (** [info.Decode(c.reader, c.revision)] on a fresh [proto.TableColumns] *)
  TableColumns_Decode : N -> Env -> (TableColumns * option error) * Env;
  (** [c.profileEvents(ctx)] *)
  conn_profileEvents : Context -> Env -> (list ProfileEvent * option error) * Env;
  (** [c.logs(ctx)] *)
  conn_logs : Context -> Env -> (list Log * option error) * Env;
  (** [c.progress()] *)
  conn_progress : Env -> (ptr Progress * option error) * Env;
  (** [c.buffer.PutUVarInt(v)] *)
  buffer_PutUVarInt : N -> Env -> Env;
  (** [c.flush()] *)
  conn_flush : Env -> option error * Env;
  (** [c.close()] *)
  conn_close : Env -> option error * Env
}.

(** ** How a call ends *)

(** Other than by returning: a panic (which unwinds and runs deferred
    calls), a goroutine blocked for ever in [Lock], or a fatal runtime error
    (unlock of an unlocked mutex). *)
Inductive abort : Type :=
| Panic (v : string)
| Blocked
| Fatal (msg : string).

Inductive outcome (A : Type) : Type :=
| Ret (a : A)
| Abort (x : abort).
Arguments Abort {A} x.

(** What a [for] body does next. *)
Inductive step (R : Type) : Type :=
| Continue
| Break (r : R).
Arguments Continue {R}.

(** The panic of calling a nil func value. *)
Definition nil_func_call : string :=
  "invalid memory address or nil pointer dereference"%string.

Section Processor.

Context {P : Proto} {D : Driver} {User : Type}.

(** [type onProcess struct]: five func-valued fields, each may be nil.  A
    callback acts on the caller's state [User]. *)
Record onProcess : Type := mkOnProcess {
  data : option (ptr Block -> User -> User);
  logs : option (list Log -> User -> User);
  progress : option (ptr Progress -> User -> User);
  profileInfo : option (ptr ProfileInfo -> User -> User);
  profileEvents : option (list ProfileEvent -> User -> User)
}.

(** A value handed to [c.debugf] for the [%s] verb. *)
Inductive debug_arg : Type :=
| DbgProfileInfo (info : ptr ProfileInfo)
| DbgProgress (p : ptr Progress).

(** The observable steps, in the order they happen. *)
Inductive event : Type :=
| EvLock
| EvUnlock
| EvReadByte (packet : byte) (err : option error)
| EvReadData (packet : byte) (compressible : bool) (block : ptr Block) (err : option error)
| EvException (err : option error)
| EvProfileInfoDecode (info : ProfileInfo) (err : option error)
| EvTableColumnsDecode (info : TableColumns) (err : option error)
| EvProfileEvents (events : list ProfileEvent) (err : option error)
| EvLogs (l : list Log) (err : option error)
| EvProgress (p : ptr Progress) (err : option error)
| EvDebugf (format : string) (args : list debug_arg)
| EvOnData (block : ptr Block)
| EvOnLogs (l : list Log)
| EvOnProgress (p : ptr Progress)
| EvOnProfileInfo (info : ptr ProfileInfo)
| EvOnProfileEvents (events : list ProfileEvent)
| EvPutUVarInt (v : N)
| EvFlush (err : option error)
| EvClose (err : option error).

(** The fields of [connect] this file uses ([io] stands for reader, buffer
    and socket, [rwLock] is [true] while the mutex is held), the caller's
    state, and the trace. *)
Record world : Type := mkWorld {
  io : Env;
  revision : N;
  rwLock : bool;
  caller : User;
  trace : list event
}.

Definition set_io (e : Env) (w : world) : world :=
  mkWorld e (revision w) (rwLock w) (caller w) (trace w).
Definition set_rwLock (b : bool) (w : world) : world :=
  mkWorld (io w) (revision w) b (caller w) (trace w).
Definition set_caller (u : User) (w : world) : world :=
  mkWorld (io w) (revision w) (rwLock w) u (trace w).
Definition log_event (ev : event) (w : world) : world :=
  mkWorld (io w) (revision w) (rwLock w) (caller w) (trace w ++ [ev]).

(** The logical clock. *)
Definition now (w : world) : nat := List.length (trace w).

(** ** The monad *)

Definition M (A : Type) : Type := world -> outcome A * world.

Definition ret {A} (a : A) : M A := fun w => (Ret a, w).

Definition bind {A B} (m : M A) (k : A -> M B) : M B :=
  fun w =>
    match m w with
    | (Ret a, w1) => k a w1
    | (Abort x, w1) => (Abort x, w1)
    end.

Definition panic {A} (v : string) : M A := fun w => (Abort (Panic v), w).

(** [defer d; body]: [d] runs when [body] returns and when it panics. *)
Definition defer {A} (d : M unit) (body : M A) : M A :=
  fun w =>
    match body w with
    | (Ret a, w1) =>
        match d w1 with
        | (Ret _, w2) => (Ret a, w2)
        | (Abort x, w2) => (Abort x, w2)
        end
    | (Abort (Panic v), w1) =>
        match d w1 with
        | (Ret _, w2) => (Abort (Panic v), w2)
        | (Abort x, w2) => (Abort x, w2)
        end
    | (Abort x, w1) => (Abort x, w1)
    end.

(** A collaborator call: run it on [io] and trace what it returned.  The one
    step stands for the whole call, with whatever the collaborator does
    inside it. *)
Definition call_io {A} (f : Env -> A * Env) (ev : A -> event) : M A :=
  fun w =>
    let (a, e) := f (io w) in
    (Ret a, log_event (ev a) (set_io e w)).

(** Calling a func value that may be nil. *)
Definition invoke {A} (f : option (A -> User -> User)) (ev : A -> event) (a : A) : M unit :=
  fun w =>
    match f with
    | Some g => (Ret tt, log_event (ev a) (set_caller (g a (caller w)) w))
    | None => (Abort (Panic nil_func_call), w)
    end.

End Processor.

Declare Scope go_scope.
Delimit Scope go_scope with go.
Notation "x <- m ;; k" := (bind m (fun x => k))
  (at level 61, m at next level, right associativity) : go_scope.
Notation "' pat <- m ;; k" := (bind m (fun x => match x with pat => k end))
  (at level 61, pat pattern, m at next level, right associativity) : go_scope.
Notation "m ;; k" := (bind m (fun _ => k))
  (at level 61, right associativity) : go_scope.

(** ** The program *)

Section Program.

Context {P : Proto} {D : Driver} {User : Type}.
Local Open Scope go_scope.

Local Abbreviation M := (@M D User).
Local Abbreviation world := (@world D User).

(** [c.rwLock.Lock()]: blocks while the mutex is held. *)
Definition rwLock_Lock : M unit :=
  fun w =>
    if rwLock w then (Abort Blocked, w)
    else (Ret tt, log_event EvLock (set_rwLock true w)).

(** [c.rwLock.Unlock()]: a fatal error on a mutex that is not held. *)
Definition rwLock_Unlock : M unit :=
  fun w =>
    if rwLock w then (Ret tt, log_event EvUnlock (set_rwLock false w))
    else (Abort (Fatal "sync: unlock of unlocked mutex"), w).

(** [c.debugf(format, args...)] *)
Definition debugf (format : string) (args : list debug_arg) : M unit :=
  fun w => (Ret tt, log_event (EvDebugf format args) w).

(** [c.revision] *)
Definition get_revision : M N := fun w => (Ret (revision w), w).

(** What [ctx.Err()] is in world [w]. *)
Definition ctx_err_at (ctx : Context) (w : world) : option error :=
  match ctx with
  | Background => None
  | CancelledAt t reason => if (t <=? now w)%nat then Some reason else None
  end.

(** [ctx.Err()] *)
Definition ctx_Err (ctx : Context) : M (option error) :=
  fun w => (Ret (ctx_err_at ctx w), w).

(** [select { case <-ctx.Done(): ... default: }]: is the channel closed? *)
Definition ctx_Done (ctx : Context) : M bool :=
  fun w => (Ret (match ctx_err_at ctx w with Some _ => true | None => false end), w).

(** [case v1, v2, ...:] of a switch on [packet]. *)
Definition case_of (packet : byte) (values : list byte) : bool :=
  existsb (Byte.eqb packet) values.

Definition is_set {A} (f : option A) : bool :=
  match f with Some _ => true | None => false end.

(** [func (c *connect) cancel() error] *)
Definition cancel : M (option error) :=
  debugf "[cancel]" [] ;;
  call_io (fun e => (tt, buffer_PutUVarInt ClientCancel e))
          (fun _ => EvPutUVarInt ClientCancel) ;;
  wErr <- call_io conn_flush EvFlush ;;
  cErr <- call_io conn_close EvClose ;;
  match cErr with
  | Some e => ret (Some e)
  | None => ret wErr
  end.

(** The [switch packet] statement of [handle], up to its [return nil]. *)
Definition handle_switch (ctx : Context) (packet : byte) (on : onProcess)
  : M (option error) :=
    if case_of packet [ServerData; ServerTotals; ServerExtremes] then
      '(block, err) <- call_io (conn_readData ctx packet true)
                               (fun r => EvReadData packet true (fst r) (snd r)) ;;
      match err with
      | Some e => ret (Some e)
      | None =>
          (if negb (Block_Rows block =? 0)%Z && is_set (data on)
           then invoke (data on) EvOnData block
           else ret tt) ;;
          ret None
      end
    else if case_of packet [ServerException] then
      call_io conn_exception EvException
    else if case_of packet [ServerProfileInfo] then
      rev <- get_revision ;;
      '(info, err) <- call_io (ProfileInfo_Decode rev)
                              (fun r => EvProfileInfoDecode (fst r) (snd r)) ;;
      match err with
      | Some e => ret (Some e)
      | None =>
          debugf "[profile info] %s" [DbgProfileInfo (Some info)] ;;
          invoke (profileInfo on) EvOnProfileInfo (Some info) ;;
          ret None
      end
    else if case_of packet [ServerTableColumns] then
      rev <- get_revision ;;
      '(_, err) <- call_io (TableColumns_Decode rev)
                           (fun r => EvTableColumnsDecode (fst r) (snd r)) ;;
      match err with
      | Some e => ret (Some e)
      | None =>
          debugf "[table columns]" [] ;;
          ret None
      end
    else if case_of packet [ServerProfileEvents] then
      '(events, err) <- call_io (conn_profileEvents ctx)
                                (fun r => EvProfileEvents (fst r) (snd r)) ;;
      match err with
      | Some e => ret (Some e)
      | None =>
          invoke (profileEvents on) EvOnProfileEvents events ;;
          ret None
      end
    else if case_of packet [ServerLog] then
      '(l, err) <- call_io (conn_logs ctx) (fun r => EvLogs (fst r) (snd r)) ;;
      match err with
      | Some e => ret (Some e)
      | None =>
          invoke (logs on) EvOnLogs l ;;
          ret None
      end
    else if case_of packet [ServerProgress] then
      '(p, err) <- call_io conn_progress (fun r => EvProgress (fst r) (snd r)) ;;
      match err with
      | Some e => ret (Some e)
      | None =>
          debugf "[progress] %s" [DbgProgress p] ;;
          invoke (progress on) EvOnProgress p ;;
          ret None
      end
    else
      ret (Some (OpError "process" (fmt_Errorf "unexpected packet %d" packet))).

(** [func (c *connect) handle(ctx, packet, on) error] *)
Definition handle (ctx : Context) (packet : byte) (on : onProcess) : M (option error) :=
  rwLock_Lock ;;
  defer rwLock_Unlock (handle_switch ctx packet on).

(** [for { body }]: the loop ends when the body returns from the function
    (or aborts).  [fuel] bounds the iterations; [None] is out of fuel. *)
Fixpoint for_loop {R} (fuel : nat) (body : M (step R)) (w : world)
  : option (outcome R * world) :=
  match fuel with
  | O => None
  | S fuel' =>
      match body w with
      | (Ret Continue, w1) => for_loop fuel' body w1
      | (Ret (Break r), w1) => Some (Ret r, w1)
      | (Abort x, w1) => Some (Abort x, w1)
      end
  end.

(** One iteration of the loop of [firstBlock]. *)
Definition firstBlock_body (ctx : Context) (on : onProcess)
  : M (step (ptr Block * option error)) :=
  done <- ctx_Done ctx ;;
  if done then
    cancel ;;
    reason <- ctx_Err ctx ;;
    ret (Break (None, reason))
  else
    '(packet, err) <- call_io reader_ReadByte (fun r => EvReadByte (fst r) (snd r)) ;;
    match err with
    | Some e => ret (Break (None, Some e))
    | None =>
        if case_of packet [ServerData] then
          r <- call_io (conn_readData ctx packet true)
                       (fun r => EvReadData packet true (fst r) (snd r)) ;;
          ret (Break r)
        else if case_of packet [ServerEndOfStream] then
          debugf "[end of stream]" [] ;;
          ret (Break (None, Some io_EOF))
        else
          err <- handle ctx packet on ;;
          match err with
          | Some e => ret (Break (None, Some e))
          | None => ret Continue
          end
    end.

(** [func (c *connect) firstBlock(ctx, on)], returning a block pointer and
    an error *)
Definition firstBlock (fuel : nat) (ctx : Context) (on : onProcess) (w : world)
  : option (outcome (ptr Block * option error) * world) :=
  for_loop fuel (firstBlock_body ctx on) w.

(** One iteration of the loop of [process]. *)
Definition process_body (ctx : Context) (on : onProcess) : M (step (option error)) :=
  done <- ctx_Done ctx ;;
  if done then
    cancel ;;
    reason <- ctx_Err ctx ;;
    ret (Break reason)
  else
    rwLock_Lock ;;
    '(packet, err) <- call_io reader_ReadByte (fun r => EvReadByte (fst r) (snd r)) ;;
    rwLock_Unlock ;;
    match err with
    | Some e => ret (Break (Some e))
    | None =>
        if case_of packet [ServerEndOfStream] then
          debugf "[end of stream]" [] ;;
          ret (Break None)
        else
          err <- handle ctx packet on ;;
          match err with
          | Some e => ret (Break (Some e))
          | None => ret Continue
          end
    end.

(** [func (c *connect) process(ctx, on) error] *)
Definition process (fuel : nat) (ctx : Context) (on : onProcess) (w : world)
  : option (outcome (option error) * world) :=
  for_loop fuel (process_body ctx on) w.

End Program.

(** ** Observations on worlds and traces *)

(** Reading a [%d] back. *)
Definition read_d (s : string) : option byte :=
  match NilZero.uint_of_string s with
  | Some d => Byte.of_N (N.of_uint d)
  | None => None
  end.

(** The byte named by the message of an unexpected-packet error. *)
Definition packet_of_message (msg : string) : option byte :=
  if prefix "unexpected packet " msg
  then read_d (substring 18 (String.length msg - 18) msg)
  else None.

(** The operation and the byte carried by the error [handle] builds in its
    default case. *)
Definition unexpected_packet_of (e : error) : option (string * byte) :=
  match e with
  | OpError op (errorString msg) =>
      match packet_of_message msg with
      | Some b => Some (op, b)
      | None => None
      end
  | _ => None
  end.


Section Observations.

Context {P : Proto} {D : Driver} {User : Type}.
Local Abbreviation world := (@world D User).
Local Abbreviation onProcess := (@onProcess D User).

(** Events of the mutex, and of the tag reads of the loops. *)
Definition is_lock_event (ev : @event D) : bool :=
  match ev with
  | EvLock | EvUnlock => true
  | _ => false
  end.

Definition is_tag_read (ev : @event D) : bool :=
  match ev with
  | EvReadByte _ _ => true
  | _ => false
  end.

Definition inner_event (ev : @event D) : Prop :=
  is_lock_event ev = false /\ is_tag_read ev = false.

(** The world once [firstBlock] has read [packet]. *)
Definition after_read (packet : byte) (e1 : Env) (w : world) : world :=
  mkWorld e1 (revision w) (rwLock w) (caller w)
    (trace w ++ [EvReadByte packet None]).

(** The world once [process] has read [packet] under the mutex. *)
Definition after_locked_read (packet : byte) (e1 : Env) (w : world) : world :=
  mkWorld e1 (revision w) false (caller w)
    (trace w ++ [EvLock; EvReadByte packet None; EvUnlock]).

(** Replay of the mutex over a stretch of trace: [Lock] only when free,
    [Unlock] only when held, every other step while held, free at the end. *)
Fixpoint under_lock (held : bool) (evs : list (@event D)) : bool :=
  match evs with
  | [] => negb held
  | EvLock :: rest => negb held && under_lock true rest
  | EvUnlock :: rest => held && under_lock false rest
  | _ :: rest => held && under_lock held rest
  end.

(** What reached the debug log sink. *)
Fixpoint debug_lines (evs : list (@event D)) : list (string * list debug_arg) :=
  match evs with
  | [] => []
  | EvDebugf format args :: rest => (format, args) :: debug_lines rest
  | _ :: rest => debug_lines rest
  end.

(** The read of an [EndOfStream] tag. *)
Definition reads_eos (ev : @event D) : Prop :=
  ev = EvReadByte ServerEndOfStream None.

(** [skips ctx on w w']: from [w], [firstBlock] goes through some
    iterations, each of which finds the context live, reads a tag that is
    neither [Data] nor [EndOfStream] and has it handled without error, and
    stands at the top of its loop in [w']. *)
Inductive skips (ctx : Context) (on : onProcess) : world -> world -> Prop :=
| skips_none (w : world) : skips ctx on w w
| skips_packet (w w2 w' : world) (packet : byte) (e1 : Env) :
    ctx_err_at ctx w = None ->
    reader_ReadByte (io w) = ((packet, None), e1) ->
    packet <> ServerData ->
    packet <> ServerEndOfStream ->
    handle ctx packet on (after_read packet e1 w) = (Ret None, w2) ->
    skips ctx on w2 w' ->
    skips ctx on w w'.

(** [drains ctx on w w']: from [w], [process] goes through some iterations,
    each of which finds the context live and the mutex free, reads a tag
    other than [EndOfStream] and has it handled without error, and stands at
    the top of its loop in [w']. *)
Inductive drains (ctx : Context) (on : onProcess) : world -> world -> Prop :=
| drains_none (w : world) : drains ctx on w w
| drains_packet (w w2 w' : world) (packet : byte) (e1 : Env) :
    ctx_err_at ctx w = None ->
    rwLock w = false ->
    reader_ReadByte (io w) = ((packet, None), e1) ->
    packet <> ServerEndOfStream ->
    handle ctx packet on (after_locked_read packet e1 w) = (Ret None, w2) ->
    drains ctx on w2 w' ->
    drains ctx on w w'.

(** No collaborator hands back the very value [io.EOF] as its error: the
    tag read, the block decoder, the exception decoder and the payload
    decoders report the end of their input by errors of their own. *)
Definition eof_is_private : Prop :=
  (forall e, snd (fst (reader_ReadByte e)) <> Some io_EOF)
  /\ (forall ctx packet compressible e,
        snd (fst (conn_readData ctx packet compressible e)) <> Some io_EOF)
  /\ (forall e, fst (conn_exception e) <> Some io_EOF)
  /\ (forall rev e, snd (fst (ProfileInfo_Decode rev e)) <> Some io_EOF)
  /\ (forall rev e, snd (fst (TableColumns_Decode rev e)) <> Some io_EOF)
  /\ (forall ctx e, snd (fst (conn_profileEvents ctx e)) <> Some io_EOF)
  /\ (forall ctx e, snd (fst (conn_logs ctx e)) <> Some io_EOF)
  /\ (forall e, snd (fst (conn_progress e)) <> Some io_EOF).

(** The steps that consume bytes of [c.reader]. *)
Definition is_reader_event (ev : @event D) : bool :=
  match ev with
  | EvReadByte _ _ | EvReadData _ _ _ _ | EvException _
  | EvProfileInfoDecode _ _ | EvTableColumnsDecode _ _
  | EvProfileEvents _ _ | EvLogs _ _ | EvProgress _ _ => true
  | _ => false
  end.

(** Replay of the mutex over a stretch of trace, from the state [held]:
    [None] when a [Lock] finds the mutex held, an [Unlock] finds it free, or
    a step is not allowed by [ok] in the state it happens in; else the state
    of the mutex at the end. *)
Fixpoint lock_replay (ok : bool -> @event D -> bool) (held : bool)
    (evs : list (@event D)) : option bool :=
  match evs with
  | [] => Some held
  | ev :: rest =>
      if ok held ev then
        match ev with
        | EvLock => if held then None else lock_replay ok true rest
        | EvUnlock => if held then lock_replay ok false rest else None
        | _ => lock_replay ok held rest
        end
      else None
  end.

(** Every read from the connection happens while the mutex is held. *)
Definition reads_need_lock (held : bool) (ev : @event D) : bool :=
  if is_reader_event ev then held else true.

(** Every tag read of a loop happens while the mutex is not held. *)
Definition tags_read_unlocked (held : bool) (ev : @event D) : bool :=
  if is_tag_read ev then negb held else true.

End Observations.

(** ** A concrete connection, to run the program on

    The tags are those of the ClickHouse native protocol.  The collaborators
    read from a list of bytes; every payload is one byte long. *)

Module Wire.

Definition tags_NoDup :
  NoDup [x01; x07; x08; x02; x06; x0b; x0e; x0a; x03; x05].
Proof.
  repeat (constructor; [simpl; intuition discriminate|]). constructor.
Qed.

Instance proto : Proto := {|
  ServerData := x01;
  ServerTotals := x07;
  ServerExtremes := x08;
  ServerException := x02;
  ServerProfileInfo := x06;
  ServerTableColumns := x0b;
  ServerProfileEvents := x0e;
  ServerLog := x0a;
  ServerProgress := x03;
  ServerEndOfStream := x05;
  ClientCancel := 3%N;
  server_tags_distinct := tags_NoDup
|}.

(** The peer's bytes still to read, what was put in the write buffer, and
    how [flush] and [close] will answer. *)
Record env : Type := mkEnv {
  wire : list byte;
  sent : list N;
  flush_answer : option error;
  close_answer : option error;
  closed : bool
}.

Definition io_ErrUnexpectedEOF : error := errorString "unexpected EOF".

(** Take one byte of payload and build the decoded value from it. *)
Definition payload {A} (build : byte -> A) (short : A) (e : env)
  : (A * option error) * env :=
  match wire e with
  | b :: rest =>
      ((build b, None),
       mkEnv rest (sent e) (flush_answer e) (close_answer e) (closed e))
  | [] => ((short, Some io_ErrUnexpectedEOF), e)
  end.

(** The reader wraps the end of the input: its error reads [read: EOF] and
    is not the value [io.EOF]. *)
Definition read_EOF : error := errorString "read: EOF".

Definition ReadByte (e : env) : (byte * option error) * env :=
  match wire e with
  | b :: rest =>
      ((b, None), mkEnv rest (sent e) (flush_answer e) (close_answer e) (closed e))
  | [] => ((x00, Some read_EOF), e)
  end.

Definition exception (e : env) : option error * env :=
  match wire e with
  | b :: rest =>
      (Some (errorString (append "code: " (fmt_d (Byte.to_N b)))),
       mkEnv rest (sent e) (flush_answer e) (close_answer e) (closed e))
  | [] => (Some io_ErrUnexpectedEOF, e)
  end.

Definition rows (b : ptr byte) : Z :=
  match b with
  | Some n => Z.of_N (Byte.to_N n)
  | None => 0
  end.

Instance driver : Driver := {|
  Env := env;
  Block := byte;
  ProfileInfo := byte;
  TableColumns := byte;
  ProfileEvent := byte;
  Log := byte;
  Progress := byte;
  Block_Rows := rows;
  reader_ReadByte := ReadByte;
  conn_readData := fun _ _ _ => payload (fun b => Some b) None;
  conn_exception := exception;
  ProfileInfo_Decode := fun _ => payload (fun b => b) x00;
  TableColumns_Decode := fun _ => payload (fun b => b) x00;
  conn_profileEvents := fun _ => payload (fun b => [b]) [];
  conn_logs := fun _ => payload (fun b => [b]) [];
  conn_progress := payload (fun b => Some b) None;
  buffer_PutUVarInt := fun v e =>
    mkEnv (wire e) (sent e ++ [v]) (flush_answer e) (close_answer e) (closed e);
  conn_flush := fun e => (flush_answer e, e);
  conn_close := fun e =>
    (close_answer e, mkEnv (wire e) (sent e) (flush_answer e) (close_answer e) true)
|}.

(** The caller keeps the names of the callbacks that ran. *)
Definition note {A} (name : string) : option (A -> list string -> list string) :=
  Some (fun _ u => u ++ [name]).

Definition all_set : onProcess :=
  mkOnProcess (note "data") (note "logs") (note "progress")
              (note "profileInfo") (note "profileEvents").

Definition none_set : onProcess (User := list string) :=
  mkOnProcess None None None None None.

(** A fresh connection about to receive [bytes]. *)
Definition start (bytes : list byte) (flushErr closeErr : option error)
  : world (User := list string) :=
  mkWorld (mkEnv bytes [] flushErr closeErr false) 54460%N false [] [].

Definition context_Canceled : error := errorString "context canceled".

(** A context that is already cancelled. *)
Definition cancelled : Context := CancelledAt 0 context_Canceled.

Definition broken_pipe : error := errorString "write: broken pipe".
Definition close_failed : error := errorString "close: use of closed network connection".

(** A connection whose flush and close both fail. *)
Definition failing : world (User := list string) :=
  start [x05] (Some broken_pipe) (Some close_failed).

(** [failing] after [cancel]. *)
Definition failing_cancelled : world (User := list string) :=
  mkWorld (mkEnv [x05] [3%N] (Some broken_pipe) (Some close_failed) true)
    54460%N false []
    [EvDebugf "[cancel]" []; EvPutUVarInt 3; EvFlush (Some broken_pipe);
     EvClose (Some close_failed)].

(** A connection whose flush fails and whose close succeeds, and the same
    after [cancel]. *)
Definition flush_fails : world (User := list string) :=
  start [x05] (Some broken_pipe) None.

Definition flush_fails_cancelled : world (User := list string) :=
  mkWorld (mkEnv [x05] [3%N] (Some broken_pipe) None true) 54460%N false []
    [EvDebugf "[cancel]" []; EvPutUVarInt 3; EvFlush (Some broken_pipe);
     EvClose None].

(** A connection whose flush and close both succeed, and the same after
    [cancel]. *)
Definition healthy : world (User := list string) := start [x05] None None.

Definition healthy_cancelled : world (User := list string) :=
  mkWorld (mkEnv [x05] [3%N] None None true) 54460%N false []
    [EvDebugf "[cancel]" []; EvPutUVarInt 3; EvFlush None; EvClose None].

End Wire.

(** ** Facts about the building blocks *)

Lemma byte_eqb_refl (b : byte) : Byte.eqb b b = true.
Proof. now apply Byte.byte_dec_lb. Qed.

Lemma byte_eqb_neq (a b : byte) : a <> b -> Byte.eqb a b = false.
Proof.
  intro Hne. destruct (Byte.eqb a b) eqn:E; [|reflexivity].
  elim Hne. now apply Byte.byte_dec_bl.
Qed.

Lemma case_of_In (packet : byte) (values : list byte) :
  case_of packet values = true <-> In packet values.
Proof.
  unfold case_of. rewrite existsb_exists. split.
  - intros (x & Hin & Heq). apply Byte.byte_dec_bl in Heq. now subst.
  - intros Hin. exists packet. split; [assumption | apply byte_eqb_refl].
Qed.

Lemma case_of_not_In (packet : byte) (values : list byte) :
  ~ In packet values -> case_of packet values = false.
Proof.
  intro Hn. destruct (case_of packet values) eqn:E; [|reflexivity].
  elim Hn. now apply case_of_In.
Qed.

Lemma app_cons_assoc {A} (l : list A) (x : A) (l' : list A) :
  (l ++ [x]) ++ l' = l ++ x :: l'.
Proof. now rewrite <- app_assoc. Qed.

Lemma unexpected_packet_roundtrip (packet : byte) :
  unexpected_packet_of
    (OpError "process" (fmt_Errorf "unexpected packet %d" packet))
  = Some ("process"%string, packet).
Proof. destruct packet; vm_compute; reflexivity. Qed.

Lemma error_is_EOF_dec (err : option error) :
  {err = Some io_EOF} + {err <> Some io_EOF}.
Proof.
  destruct err as [[| |]|]; first [left; reflexivity | right; discriminate].
Qed.

(** ** Tactics *)

(** [In x l] for a list given by its elements. *)
Ltac in_list := simpl; repeat (first [left; reflexivity | right]).

(** Two different tags of the vocabulary are different bytes. *)
Ltac tags_differ :=
  let E := fresh "E" in
  let ND := fresh "ND" in
  intro E; pose proof server_tags_distinct as ND; rewrite E in ND;
  repeat (let Hn := fresh "Hn" in
          apply NoDup_cons_iff in ND; destruct ND as [Hn ND];
          try (elim Hn; solve [in_list])).

(** Decide the cases of a switch on a tag of the vocabulary. *)
Ltac switch_tag :=
  unfold case_of; cbn [existsb];
  repeat match goal with
    | |- context [Byte.eqb ?a ?a] => rewrite (byte_eqb_refl a)
    | |- context [Byte.eqb ?a ?b] => rewrite (@byte_eqb_neq a b) by tags_differ
    end;
  cbn [orb].

(** Unfold the monad. *)
Ltac unfold_go :=
  unfold bind, ret, defer, panic, call_io, invoke, debugf, get_revision,
    rwLock_Lock, rwLock_Unlock, ctx_Done, ctx_Err in *.

(** Put a trace in the form [t ++ [e1; ..; en]]. *)
Ltac flat_trace := rewrite ?app_cons_assoc; cbn [app].

(** Split on an innermost scrutinee of a match in hypothesis [H]. *)
Ltac split_match H :=
  match type of H with
  | context [match ?x with _ => _ end] =>
      lazymatch x with
      | context [match _ with _ => _ end] => fail
      | _ => destruct x eqn:?
      end
  end.

(** Close a goal that equates two worlds given by their fields. *)
Ltac same_world :=
  unfold log_event, set_io, set_rwLock, set_caller;
  cbn [rwLock io trace revision caller fst snd];
  rewrite ?app_cons_assoc; cbn [app]; reflexivity.

Ltac world_simpl :=
  cbn [rwLock set_rwLock log_event io set_io set_caller trace revision caller
       fst snd] in *.

Section Properties.

Context {P : Proto} {D : Driver} {User : Type}.
Local Abbreviation world := (@world D User).
Local Abbreviation onProcess := (@onProcess D User).

(** The switch of [handle] leaves the mutex and the revision alone, and
    either returns or panics on a nil callback. *)
Lemma handle_switch_shape (ctx : Context) (packet : byte) (on : onProcess)
    (w w' : world) (o : outcome (option error)) :
  handle_switch ctx packet on w = (o, w') ->
  (exists mid, trace w' = trace w ++ mid /\ Forall inner_event mid)
  /\ rwLock w' = rwLock w
  /\ revision w' = revision w
  /\ ((exists r, o = Ret r) \/ o = Abort (Panic nil_func_call)).
Proof.
  intros H. unfold handle_switch in H. unfold_go.
  repeat (split_match H; world_simpl).
  all: inversion H; subst; clear H; world_simpl.
  all: flat_trace;
    (split; [eexists; split;
                [first [reflexivity | symmetry; apply app_nil_r]
                | repeat constructor]
            | repeat split; eauto]).
Qed.

(** [handle] on a free mutex: lock, the switch, unlock. *)
Lemma handle_run (ctx : Context) (packet : byte) (on : onProcess) (w w1 : world)
    (o : outcome (option error)) :
  rwLock w = false ->
  handle_switch ctx packet on (log_event EvLock (set_rwLock true w)) = (o, w1) ->
  handle ctx packet on w = (o, log_event EvUnlock (set_rwLock false w1)).
Proof.
  intros Hfree Hsw.
  destruct (handle_switch_shape _ _ _ _ Hsw) as (_ & Hlock & _ & Ho).
  world_simpl.
  unfold handle. unfold_go. rewrite Hfree, Hsw, Hlock.
  destruct Ho as [[r ->] | ->]; reflexivity.
Qed.

(** [handle] on a held mutex blocks before doing anything. *)
Lemma handle_blocked (ctx : Context) (packet : byte) (on : onProcess) (w : world) :
  rwLock w = true -> handle ctx packet on w = (Abort Blocked, w).
Proof. intros Hheld. unfold handle. unfold_go. now rewrite Hheld. Qed.

(** Reduce a goal about [handle] on a free mutex to its switch: the goal
    becomes [switch = (o, w1) -> (o, unlocked w1) = ..] with the switch
    unfolded. *)
Ltac enter_handle Hfree :=
  match goal with
  | |- handle ?c ?p ?on ?w = _ =>
      let o := fresh "o" in
      let w1 := fresh "w1" in
      let E := fresh "Hsw" in
      destruct (handle_switch c p on (log_event EvLock (set_rwLock true w)))
        as [o w1] eqn:E;
      rewrite (@handle_run _ _ _ _ _ _ Hfree E);
      revert E; unfold handle_switch; unfold_go;
      cbn [rwLock set_rwLock log_event io set_io set_caller trace revision caller]
  end.

(** Leave the switch once it is reduced to a value. *)
Ltac leave_handle :=
  cbn [rwLock set_rwLock log_event io set_io set_caller trace revision caller
       fst snd];
  let H := fresh in intros H; injection H as <- <-; same_world.

(** [cancel], step by step. *)
Lemma cancel_run (w : world) (wErr cErr : option error) (e2 e3 : Env) :
  conn_flush (buffer_PutUVarInt ClientCancel (io w)) = (wErr, e2) ->
  conn_close e2 = (cErr, e3) ->
  cancel w =
    (Ret (match cErr with Some e => Some e | None => wErr end),
     mkWorld e3 (revision w) (rwLock w) (caller w)
       (trace w ++ [EvDebugf "[cancel]" []; EvPutUVarInt ClientCancel;
                    EvFlush wErr; EvClose cErr])).
Proof.
  intros Hflush Hclose. unfold cancel. unfold_go. world_simpl.
  rewrite Hflush. world_simpl. rewrite Hclose.
  destruct cErr; unfold log_event, set_io; world_simpl; flat_trace; reflexivity.
Qed.

(** A cancelled context stays cancelled, with the same reason. *)
Lemma ctx_err_sticky (ctx : Context) (w w' : world) (reason : error) :
  ctx_err_at ctx w = Some reason ->
  (now w <= now w')%nat ->
  ctx_err_at ctx w' = Some reason.
Proof.
  unfold ctx_err_at. destruct ctx as [|t r]; [discriminate|].
  destruct (t <=? now w)%nat eqn:E; [|discriminate].
  intros [= ->] Hle. apply Nat.leb_le in E.
  assert (H : (t <=? now w')%nat = true) by (apply Nat.leb_le; lia).
  now rewrite H.
Qed.

(** The first statement of both loop bodies when the context is done. *)
Lemma firstBlock_body_cancelled (ctx : Context) (on : onProcess) (w : world)
    (reason : error) (wErr cErr : option error) (e2 e3 : Env) :
  ctx_err_at ctx w = Some reason ->
  conn_flush (buffer_PutUVarInt ClientCancel (io w)) = (wErr, e2) ->
  conn_close e2 = (cErr, e3) ->
  firstBlock_body ctx on w =
    (Ret (Break (None, Some reason)),
     mkWorld e3 (revision w) (rwLock w) (caller w)
       (trace w ++ [EvDebugf "[cancel]" []; EvPutUVarInt ClientCancel;
                    EvFlush wErr; EvClose cErr])).
Proof.
  intros Hctx Hflush Hclose.
  unfold firstBlock_body, bind at 1, ctx_Done. rewrite Hctx.
  unfold bind at 1. rewrite (cancel_run _ Hflush Hclose).
  unfold_go.
  erewrite ctx_err_sticky; [reflexivity | eassumption |].
  unfold now. cbn [trace]. rewrite length_app. lia.
Qed.

Lemma process_body_cancelled (ctx : Context) (on : onProcess) (w : world)
    (reason : error) (wErr cErr : option error) (e2 e3 : Env) :
  ctx_err_at ctx w = Some reason ->
  conn_flush (buffer_PutUVarInt ClientCancel (io w)) = (wErr, e2) ->
  conn_close e2 = (cErr, e3) ->
  process_body ctx on w =
    (Ret (Break (Some reason)),
     mkWorld e3 (revision w) (rwLock w) (caller w)
       (trace w ++ [EvDebugf "[cancel]" []; EvPutUVarInt ClientCancel;
                    EvFlush wErr; EvClose cErr])).
Proof.
  intros Hctx Hflush Hclose.
  unfold process_body, bind at 1, ctx_Done. rewrite Hctx.
  unfold bind at 1. rewrite (cancel_run _ Hflush Hclose).
  unfold_go.
  erewrite ctx_err_sticky; [reflexivity | eassumption |].
  unfold now. cbn [trace]. rewrite length_app. lia.
Qed.

(** More fuel does not change a result. *)
Lemma for_loop_more_fuel {R} (body : @M D User (step R)) (n k : nat) (w : world)
    (r : outcome R * world) :
  for_loop n body w = Some r -> for_loop (n + k) body w = Some r.
Proof.
  revert w. induction n as [|n IH]; intros w; [discriminate|].
  cbn [for_loop Nat.add].
  destruct (body w) as [[[|r0]|x] w1]; auto.
Qed.

(** *** The loop bodies after a tag was read *)

Lemma firstBlock_body_eos (ctx : Context) (on : onProcess) (w : world) (e1 : Env) :
  ctx_err_at ctx w = None ->
  reader_ReadByte (io w) = ((ServerEndOfStream, None), e1) ->
  firstBlock_body ctx on w =
    (Ret (Break (None, Some io_EOF)),
     mkWorld e1 (revision w) (rwLock w) (caller w)
       (trace w ++ [EvReadByte ServerEndOfStream None;
                    EvDebugf "[end of stream]" []])).
Proof.
  intros Hctx Hread. unfold firstBlock_body. unfold_go. rewrite Hctx, Hread.
  switch_tag. same_world.
Qed.

Lemma firstBlock_body_dispatch (ctx : Context) (on : onProcess) (w w2 : world)
    (packet : byte) (e1 : Env) (o : outcome (option error)) :
  ctx_err_at ctx w = None ->
  reader_ReadByte (io w) = ((packet, None), e1) ->
  packet <> ServerData ->
  packet <> ServerEndOfStream ->
  handle ctx packet on (after_read packet e1 w) = (o, w2) ->
  firstBlock_body ctx on w =
    (match o with
     | Ret (Some e) => Ret (Break (None, Some e))
     | Ret None => Ret Continue
     | Abort x => Abort x
     end, w2).
Proof.
  intros Hctx Hread Hd He Hh. unfold firstBlock_body. unfold_go.
  rewrite Hctx, Hread. unfold case_of. cbn [existsb fst snd].
  rewrite (byte_eqb_neq Hd), (byte_eqb_neq He). cbn [orb].
  unfold after_read in Hh. unfold log_event, set_io. cbn [io revision rwLock caller trace].
  rewrite Hh. destruct o as [[e|]|x]; reflexivity.
Qed.

Lemma process_body_eos (ctx : Context) (on : onProcess) (w : world) (e1 : Env) :
  ctx_err_at ctx w = None ->
  rwLock w = false ->
  reader_ReadByte (io w) = ((ServerEndOfStream, None), e1) ->
  process_body ctx on w =
    (Ret (Break None),
     mkWorld e1 (revision w) false (caller w)
       (trace w ++ [EvLock; EvReadByte ServerEndOfStream None; EvUnlock;
                    EvDebugf "[end of stream]" []])).
Proof.
  intros Hctx Hfree Hread. unfold process_body. unfold_go.
  rewrite Hctx, Hfree. world_simpl. rewrite Hread. world_simpl.
  switch_tag. same_world.
Qed.

Lemma process_body_dispatch (ctx : Context) (on : onProcess) (w w2 : world)
    (packet : byte) (e1 : Env) (o : outcome (option error)) :
  ctx_err_at ctx w = None ->
  rwLock w = false ->
  reader_ReadByte (io w) = ((packet, None), e1) ->
  packet <> ServerEndOfStream ->
  handle ctx packet on (after_locked_read packet e1 w) = (o, w2) ->
  process_body ctx on w =
    (match o with
     | Ret (Some e) => Ret (Break (Some e))
     | Ret None => Ret Continue
     | Abort x => Abort x
     end, w2).
Proof.
  intros Hctx Hfree Hread He Hh. unfold process_body. unfold_go.
  rewrite Hctx, Hfree. world_simpl. rewrite Hread. world_simpl.
  unfold case_of. cbn [existsb]. rewrite (byte_eqb_neq He). cbn [orb].
  unfold after_locked_read in Hh.
  unfold log_event, set_io, set_rwLock. cbn [io revision rwLock caller trace].
  rewrite !app_cons_assoc. cbn [app].
  rewrite Hh. destruct o as [[e|]|x]; reflexivity.
Qed.

Lemma debug_lines_app (a b : list (@event D)) :
  debug_lines (a ++ b) = debug_lines a ++ debug_lines b.
Proof.
  induction a as [|ev a IH]; [reflexivity|].
  destruct ev; cbn [app debug_lines]; rewrite IH; reflexivity.
Qed.

(** ** The cancellation protocol *)

(** C8: [cancel] writes the Cancel tag, flushes, and then closes the
    connection whatever the flush returned; it reports the close error when
    the close failed and the flush error (possibly nil) when the close
    succeeded. *)
Theorem cancel_always_closes_close_error_first
    (w : world) (wErr cErr : option error) (e2 e3 : Env) :
  conn_flush (buffer_PutUVarInt ClientCancel (io w)) = (wErr, e2) ->
  conn_close e2 = (cErr, e3) ->
  exists r : option error,
    cancel w =
      (Ret r,
       mkWorld e3 (revision w) (rwLock w) (caller w)
         (trace w ++ [EvDebugf "[cancel]" []; EvPutUVarInt ClientCancel;
                      EvFlush wErr; EvClose cErr]))
    /\ (forall e, cErr = Some e -> r = Some e)
    /\ (cErr = None -> r = wErr).
Proof.
  intros Hflush Hclose. eexists. split; [apply (cancel_run _ Hflush Hclose)|].
  split.
  - intros e ->. reflexivity.
  - intros ->. reflexivity.
Qed.

(** C1: when the context is done at the top of an iteration of [firstBlock]
    or of [process], the loop runs [cancel] (one Cancel tag written, a
    flush, a close, in this order, and nothing else) and returns the reason
    [ctx.Err()], whatever the flush and the close returned. *)
Theorem cancelled_loop_runs_cancel_and_returns_reason
    (fuel : nat) (ctx : Context) (on : onProcess) (w : world) (reason : error)
    (wErr cErr : option error) (e2 e3 : Env) :
  ctx_err_at ctx w = Some reason ->
  conn_flush (buffer_PutUVarInt ClientCancel (io w)) = (wErr, e2) ->
  conn_close e2 = (cErr, e3) ->
  let w' := mkWorld e3 (revision w) (rwLock w) (caller w)
              (trace w ++ [EvDebugf "[cancel]" []; EvPutUVarInt ClientCancel;
                           EvFlush wErr; EvClose cErr]) in
  firstBlock (S fuel) ctx on w = Some (Ret (None, Some reason), w')
  /\ process (S fuel) ctx on w = Some (Ret (Some reason), w').
Proof.
  intros Hctx Hflush Hclose w'. split.
  - unfold firstBlock. cbn [for_loop].
    now rewrite (firstBlock_body_cancelled _ on _ Hctx Hflush Hclose).
  - unfold process. cbn [for_loop].
    now rewrite (process_body_cancelled _ on _ Hctx Hflush Hclose).
Qed.

(** C9, as the code has it: on cancellation both loops drop what [cancel]
    returned.  The caller gets the bare reason, the debug log gets the one
    line written before the flush, and no callback runs, whatever the flush
    and the close returned. *)
Theorem cancelled_loop_drops_cancel_errors
    (fuel : nat) (ctx : Context) (on : onProcess) (w : world) (reason : error) :
  ctx_err_at ctx w = Some reason ->
  exists w1 w2 : world,
    firstBlock (S fuel) ctx on w = Some (Ret (None, Some reason), w1)
    /\ process (S fuel) ctx on w = Some (Ret (Some reason), w2)
    /\ debug_lines (trace w1) = debug_lines (trace w) ++ [("[cancel]"%string, [])]
    /\ debug_lines (trace w2) = debug_lines (trace w) ++ [("[cancel]"%string, [])]
    /\ caller w1 = caller w
    /\ caller w2 = caller w.
Proof.
  intros Hctx.
  destruct (conn_flush (buffer_PutUVarInt ClientCancel (io w))) as [wErr e2] eqn:Hflush.
  destruct (conn_close e2) as [cErr e3] eqn:Hclose.
  do 2 eexists. unfold firstBlock, process. cbn [for_loop].
  rewrite (firstBlock_body_cancelled _ on _ Hctx Hflush Hclose).
  rewrite (process_body_cancelled _ on _ Hctx Hflush Hclose).
  repeat split; cbn [trace caller]; rewrite ?debug_lines_app; reflexivity.
Qed.

(** ** The packet handler *)

(** C2: on a Data, Totals or Extremes packet whose block decodes, [handle]
    does not call the data callback when the block has zero rows, and calls
    it exactly once, with that block, when the block has rows and the slot
    is set. *)
Theorem handle_data_callback_iff_rows
    (ctx : Context) (packet : byte) (on : onProcess) (w : world)
    (block : ptr Block) (e1 : Env) :
  In packet [ServerData; ServerTotals; ServerExtremes] ->
  rwLock w = false ->
  conn_readData ctx packet true (io w) = ((block, None), e1) ->
  (Block_Rows block = 0%Z ->
   handle ctx packet on w =
     (Ret None,
      mkWorld e1 (revision w) false (caller w)
        (trace w ++ [EvLock; EvReadData packet true block None; EvUnlock])))
  /\ (forall f, (Block_Rows block > 0)%Z -> data on = Some f ->
      handle ctx packet on w =
        (Ret None,
         mkWorld e1 (revision w) false (f block (caller w))
           (trace w ++ [EvLock; EvReadData packet true block None;
                        EvOnData block; EvUnlock]))).
Proof.
  intros Hin Hfree Hread. apply case_of_In in Hin. split.
  - intros Hrows. enter_handle Hfree. rewrite Hin. world_simpl.
    rewrite Hread. world_simpl. rewrite Hrows.
    cbn [Z.eqb negb andb]. leave_handle.
  - intros f Hrows Hset. enter_handle Hfree. rewrite Hin. world_simpl.
    rewrite Hread. world_simpl. rewrite Hset.
    rewrite (proj2 (Z.eqb_neq (Block_Rows block) 0)) by lia.
    cbn [negb andb is_set]. leave_handle.
Qed.

(** C3: on a tag outside the vocabulary [handle] returns the error
    [OpError{Op: process, Err: unexpected packet <tag>}], from which the
    operation name and the exact byte are read back; it consumes nothing,
    and both loops return that error at once instead of reading on. *)
Theorem handle_unexpected_packet
    (ctx : Context) (packet : byte) (on : onProcess) (w : world) :
  ~ In packet server_tags ->
  rwLock w = false ->
  let err := OpError "process" (fmt_Errorf "unexpected packet %d" packet) in
  handle ctx packet on w =
    (Ret (Some err),
     mkWorld (io w) (revision w) false (caller w) (trace w ++ [EvLock; EvUnlock]))
  /\ unexpected_packet_of err = Some ("process"%string, packet)
  /\ (forall (fuel : nat) (e1 : Env),
        ctx_err_at ctx w = None ->
        reader_ReadByte (io w) = ((packet, None), e1) ->
        firstBlock (S fuel) ctx on w =
          Some (Ret (None, Some err),
                mkWorld e1 (revision w) false (caller w)
                  (trace w ++ [EvReadByte packet None; EvLock; EvUnlock]))
        /\ process (S fuel) ctx on w =
          Some (Ret (Some err),
                mkWorld e1 (revision w) false (caller w)
                  (trace w ++ [EvLock; EvReadByte packet None; EvUnlock;
                               EvLock; EvUnlock]))).
Proof.
  intros Hout Hfree err.
  assert (Hne : forall t, In t server_tags -> packet <> t).
  { intros t Ht ->. now apply Hout. }
  assert (Hhandle : forall w0 : world, rwLock w0 = false ->
            handle ctx packet on w0 =
              (Ret (Some err),
               mkWorld (io w0) (revision w0) false (caller w0)
                 (trace w0 ++ [EvLock; EvUnlock]))).
  { intros w0 Hfree0. enter_handle Hfree0. unfold case_of. cbn [existsb].
    repeat match goal with
      | |- context [Byte.eqb packet ?t] =>
          rewrite (@byte_eqb_neq packet t) by (apply Hne; in_list)
      end.
    cbn [orb]. leave_handle. }
  split; [now apply Hhandle|].
  split; [apply unexpected_packet_roundtrip|].
  intros fuel e1 Hctx Hread. split.
  - unfold firstBlock. cbn [for_loop].
    erewrite firstBlock_body_dispatch;
      [| eassumption | eassumption | apply Hne; in_list | apply Hne; in_list
       | apply Hhandle; exact Hfree ].
    unfold after_read. cbn [io revision rwLock caller trace].
    flat_trace. reflexivity.
  - unfold process. cbn [for_loop].
    erewrite process_body_dispatch;
      [| eassumption | eassumption | eassumption | apply Hne; in_list
       | apply Hhandle; reflexivity ].
    unfold after_locked_read. cbn [io revision rwLock caller trace].
    rewrite <- app_assoc. reflexivity.
Qed.

(** C5: after a successful decode [handle] calls the profileInfo,
    profileEvents, logs and progress slots without testing them, so an unset
    slot is a call of a nil func: a panic (the deferred unlock still runs).
    Only the data slot is tested: unset, the block is dropped and [handle]
    returns nil. *)
Theorem unset_callback_panics_except_data
    (ctx : Context) (on : onProcess) (w : world) :
  rwLock w = false ->
  (forall info e1,
      profileInfo on = None ->
      ProfileInfo_Decode (revision w) (io w) = ((info, None), e1) ->
      handle ctx ServerProfileInfo on w =
        (Abort (Panic nil_func_call),
         mkWorld e1 (revision w) false (caller w)
           (trace w ++ [EvLock; EvProfileInfoDecode info None;
                        EvDebugf "[profile info] %s" [DbgProfileInfo (Some info)];
                        EvUnlock])))
  /\ (forall events e1,
      profileEvents on = None ->
      conn_profileEvents ctx (io w) = ((events, None), e1) ->
      handle ctx ServerProfileEvents on w =
        (Abort (Panic nil_func_call),
         mkWorld e1 (revision w) false (caller w)
           (trace w ++ [EvLock; EvProfileEvents events None; EvUnlock])))
  /\ (forall l e1,
      logs on = None ->
      conn_logs ctx (io w) = ((l, None), e1) ->
      handle ctx ServerLog on w =
        (Abort (Panic nil_func_call),
         mkWorld e1 (revision w) false (caller w)
           (trace w ++ [EvLock; EvLogs l None; EvUnlock])))
  /\ (forall p e1,
      progress on = None ->
      conn_progress (io w) = ((p, None), e1) ->
      handle ctx ServerProgress on w =
        (Abort (Panic nil_func_call),
         mkWorld e1 (revision w) false (caller w)
           (trace w ++ [EvLock; EvProgress p None;
                        EvDebugf "[progress] %s" [DbgProgress p]; EvUnlock])))
  /\ (forall packet block e1,
      data on = None ->
      In packet [ServerData; ServerTotals; ServerExtremes] ->
      conn_readData ctx packet true (io w) = ((block, None), e1) ->
      handle ctx packet on w =
        (Ret None,
         mkWorld e1 (revision w) false (caller w)
           (trace w ++ [EvLock; EvReadData packet true block None; EvUnlock]))).
Proof.
  intros Hfree. repeat split.
  - intros info e1 Hnil Hdec. enter_handle Hfree. switch_tag. world_simpl.
    rewrite Hdec. world_simpl. rewrite Hnil. leave_handle.
  - intros events e1 Hnil Hdec. enter_handle Hfree. switch_tag. world_simpl.
    rewrite Hdec. world_simpl. rewrite Hnil. leave_handle.
  - intros l e1 Hnil Hdec. enter_handle Hfree. switch_tag. world_simpl.
    rewrite Hdec. world_simpl. rewrite Hnil. leave_handle.
  - intros p e1 Hnil Hdec. enter_handle Hfree. switch_tag. world_simpl.
    rewrite Hdec. world_simpl. rewrite Hnil. leave_handle.
  - intros packet block e1 Hnil Hin Hdec. apply case_of_In in Hin.
    enter_handle Hfree. rewrite Hin. world_simpl. rewrite Hdec. world_simpl.
    rewrite Hnil. cbn [is_set]. rewrite andb_false_r. leave_handle.
Qed.

(** [handle] on an Exception packet returns what [c.exception()] returned. *)
Lemma handle_exception (ctx : Context) (on : onProcess) (w : world)
    (err : option error) (e1 : Env) :
  rwLock w = false ->
  conn_exception (io w) = (err, e1) ->
  handle ctx ServerException on w =
    (Ret err,
     mkWorld e1 (revision w) false (caller w)
       (trace w ++ [EvLock; EvException err; EvUnlock])).
Proof.
  intros Hfree Hexc. enter_handle Hfree. switch_tag. world_simpl.
  rewrite Hexc. leave_handle.
Qed.

(** C7: on an Exception packet [handle] decodes the exception and returns
    it; the loop that read the tag returns that error, and the last thing it
    read from the stream is the exception payload. *)
Theorem exception_packet_ends_the_stream
    (ctx : Context) (on : onProcess) (w : world) :
  rwLock w = false ->
  (forall err e1,
      conn_exception (io w) = (err, e1) ->
      handle ctx ServerException on w =
        (Ret err,
         mkWorld e1 (revision w) false (caller w)
           (trace w ++ [EvLock; EvException err; EvUnlock])))
  /\ (forall (fuel : nat) (exc : error) (e1 e2 : Env),
        ctx_err_at ctx w = None ->
        reader_ReadByte (io w) = ((ServerException, None), e1) ->
        conn_exception e1 = (Some exc, e2) ->
        firstBlock (S fuel) ctx on w =
          Some (Ret (None, Some exc),
                mkWorld e2 (revision w) false (caller w)
                  (trace w ++ [EvReadByte ServerException None;
                               EvLock; EvException (Some exc); EvUnlock]))
        /\ process (S fuel) ctx on w =
          Some (Ret (Some exc),
                mkWorld e2 (revision w) false (caller w)
                  (trace w ++ [EvLock; EvReadByte ServerException None; EvUnlock;
                               EvLock; EvException (Some exc); EvUnlock]))).
Proof.
  intros Hfree. split.
  - intros err e1 Hexc. now apply handle_exception.
  - intros fuel exc e1 e2 Hctx Hread Hexc. split.
    + unfold firstBlock. cbn [for_loop].
      erewrite firstBlock_body_dispatch;
        [| eassumption | eassumption | tags_differ | tags_differ
         | apply handle_exception; [exact Hfree | exact Hexc] ].
      unfold after_read. cbn [io revision rwLock caller trace].
      flat_trace. reflexivity.
    + unfold process. cbn [for_loop].
      erewrite process_body_dispatch;
        [| eassumption | eassumption | eassumption | tags_differ
         | apply handle_exception; [reflexivity | exact Hexc] ].
      unfold after_locked_read. cbn [io revision rwLock caller trace].
      rewrite <- app_assoc. reflexivity.
Qed.

Lemma under_lock_inner (mid : list (@event D)) :
  Forall (fun ev => is_lock_event ev = false) mid ->
  under_lock true (mid ++ [EvUnlock]) = true.
Proof.
  induction 1 as [|ev mid Hev _ IH]; [reflexivity|].
  destruct ev; try discriminate Hev; cbn [app under_lock andb]; exact IH.
Qed.

(** C10: on a free mutex [handle] takes the lock first, does everything else
    (every decode, every callback) while holding it, and releases it last,
    however it ends: by a nil return, by an error, or by a panic.  It leaves
    the mutex free. *)
Theorem handle_holds_lock_throughout_and_releases
    (ctx : Context) (packet : byte) (on : onProcess) (w w' : world)
    (o : outcome (option error)) :
  rwLock w = false ->
  handle ctx packet on w = (o, w') ->
  rwLock w' = false
  /\ o <> Abort Blocked
  /\ exists mid : list event,
       trace w' = trace w ++ EvLock :: mid ++ [EvUnlock]
       /\ Forall (fun ev => is_lock_event ev = false) mid
       /\ under_lock false (EvLock :: mid ++ [EvUnlock]) = true.
Proof.
  intros Hfree H.
  destruct (handle_switch ctx packet on (log_event EvLock (set_rwLock true w)))
    as [o1 w1] eqn:Hsw.
  rewrite (@handle_run _ _ _ _ _ _ Hfree Hsw) in H. injection H as <- <-.
  destruct (handle_switch_shape _ _ _ _ Hsw) as ((mid & Htr & Hmid) & _ & _ & Ho).
  world_simpl.
  assert (Hmid' : Forall (fun ev => is_lock_event ev = false) mid).
  { eapply Forall_impl; [|exact Hmid]. now intros ev [Hl _]. }
  split; [reflexivity|]. split.
  - destruct Ho as [[r ->] | ->]; discriminate.
  - exists mid. split; [|split].
    + rewrite Htr. rewrite <- !app_assoc. reflexivity.
    + exact Hmid'.
    + cbn [under_lock negb andb]. now apply under_lock_inner.
Qed.

(** ** The dispatch loops *)

(** What every call of [handle] on a free mutex adds to the trace. *)
Lemma handle_shape (ctx : Context) (packet : byte) (on : onProcess) (w w' : world)
    (o : outcome (option error)) :
  rwLock w = false ->
  handle ctx packet on w = (o, w') ->
  exists mid : list event,
    trace w' = trace w ++ EvLock :: mid ++ [EvUnlock]
    /\ Forall inner_event mid.
Proof.
  intros Hfree H.
  destruct (handle_switch ctx packet on (log_event EvLock (set_rwLock true w)))
    as [o1 w1] eqn:Hsw.
  rewrite (@handle_run _ _ _ _ _ _ Hfree Hsw) in H. injection H as <- <-.
  destruct (handle_switch_shape _ _ _ _ Hsw) as ((mid & Htr & Hmid) & _).
  world_simpl. exists mid. split; [|exact Hmid].
  rewrite Htr. rewrite <- !app_assoc. reflexivity.
Qed.

Lemma inner_event_not_eos (ev : @event D) : inner_event ev -> ~ reads_eos ev.
Proof. intros [_ Hr] ->. discriminate Hr. Qed.

(** One iteration of [process]: it ends the call with nil exactly when it has
    just read the EndOfStream tag; otherwise it has not read that tag. *)
Lemma process_body_shape (ctx : Context) (on : onProcess) (w w1 : world)
    (o : outcome (step (option error))) :
  process_body ctx on w = (o, w1) ->
  exists delta : list event,
    trace w1 = trace w ++ delta
    /\ match o with
       | Ret (Break None) =>
           delta = [EvLock; EvReadByte ServerEndOfStream None; EvUnlock;
                    EvDebugf "[end of stream]" []]
       | _ => Forall (fun ev => ~ reads_eos ev) delta
       end.
Proof.
  intros H.
  destruct (ctx_err_at ctx w) as [reason|] eqn:Hctx.
  { destruct (conn_flush (buffer_PutUVarInt ClientCancel (io w))) as [wErr e2] eqn:Hf.
    destruct (conn_close e2) as [cErr e3] eqn:Hc.
    rewrite (process_body_cancelled _ on _ Hctx Hf Hc) in H.
    injection H as <- <-. eexists. split; [reflexivity|].
    repeat constructor; discriminate. }
  destruct (rwLock w) eqn:Hfree.
  { unfold process_body in H. unfold_go. rewrite Hctx, Hfree in H.
    injection H as <- <-. exists []. split; [now rewrite app_nil_r | constructor]. }
  destruct (reader_ReadByte (io w)) as [[packet [e|]] e1] eqn:Hread.
  { unfold process_body in H. unfold_go. rewrite Hctx, Hfree in H.
    world_simpl. rewrite Hread in H. world_simpl.
    injection H as <- <-. world_simpl. flat_trace.
    eexists. split; [reflexivity|]. repeat constructor; discriminate. }
  destruct (case_of packet [ServerEndOfStream]) eqn:Hcase.
  { apply case_of_In in Hcase. destruct Hcase as [<- | []].
    rewrite (process_body_eos _ on _ Hctx Hfree Hread) in H.
    injection H as <- <-. eexists. split; reflexivity. }
  assert (Hne : packet <> ServerEndOfStream).
  { intros ->. unfold case_of in Hcase. cbn [existsb] in Hcase.
    now rewrite byte_eqb_refl in Hcase. }
  destruct (handle ctx packet on (after_locked_read packet e1 w)) as [o2 w2] eqn:Hh.
  rewrite (process_body_dispatch _ _ _ Hctx Hfree Hread Hne Hh) in H.
  destruct (handle_shape _ _ _ _ (eq_refl : rwLock (after_locked_read packet e1 w) = false) Hh)
    as (mid & Htr & Hmid).
  cbn [after_locked_read trace] in Htr.
  assert (Hdelta : Forall (fun ev => ~ reads_eos ev)
            ([EvLock; EvReadByte packet None; EvUnlock] ++ EvLock :: mid ++ [EvUnlock])).
  { apply Forall_app. split.
    - repeat constructor; try discriminate.
      intros [= E]. now apply Hne.
    - constructor; [discriminate|]. apply Forall_app. split.
      + eapply Forall_impl; [|exact Hmid]. apply inner_event_not_eos.
      + repeat constructor. discriminate. }
  injection H as <- <-.
  eexists. split; [rewrite Htr; rewrite <- app_assoc; reflexivity|].
  destruct o2 as [[e|]|x]; exact Hdelta.
Qed.

(** C6: [process] returns nil if and only if it reads an EndOfStream tag.
    Reading that tag (context live, mutex free) makes it return nil at once;
    and whenever a call returns, a nil result means the last tag read was
    EndOfStream and the call ended right there, while a non-nil result means
    EndOfStream was never read. *)
Theorem process_succeeds_iff_end_of_stream (ctx : Context) (on : onProcess) :
  (forall (fuel : nat) (w : world) (e1 : Env),
      ctx_err_at ctx w = None ->
      rwLock w = false ->
      reader_ReadByte (io w) = ((ServerEndOfStream, None), e1) ->
      process (S fuel) ctx on w =
        Some (Ret None,
              mkWorld e1 (revision w) false (caller w)
                (trace w ++ [EvLock; EvReadByte ServerEndOfStream None; EvUnlock;
                             EvDebugf "[end of stream]" []])))
  /\ (forall (fuel : nat) (w w' : world) (err : option error),
        process fuel ctx on w = Some (Ret err, w') ->
        exists pre : list event,
          Forall (fun ev => ~ reads_eos ev) pre
          /\ match err with
             | None =>
                 trace w' =
                   trace w ++ pre ++
                     [EvLock; EvReadByte ServerEndOfStream None; EvUnlock;
                      EvDebugf "[end of stream]" []]
             | Some _ => trace w' = trace w ++ pre
             end).
Proof.
  split.
  - intros fuel w e1 Hctx Hfree Hread. unfold process. cbn [for_loop].
    now rewrite (process_body_eos _ on _ Hctx Hfree Hread).
  - unfold process. induction fuel as [|fuel IH]; intros w w' err H; [discriminate|].
    cbn [for_loop] in H.
    destruct (process_body ctx on w) as [o w1] eqn:Hbody.
    destruct (process_body_shape _ _ _ Hbody) as (delta & Htr & Hdelta).
    destruct o as [[|[e|]]|x].
    + destruct (IH _ _ _ H) as (pre & Hpre & Herr).
      exists (delta ++ pre). split; [now apply Forall_app|].
      rewrite Htr in Herr. rewrite <- !app_assoc in Herr.
      rewrite <- ?app_assoc. exact Herr.
    + injection H as <- <-. exists delta. split; assumption.
    + injection H as <- <-. exists []. split; [constructor|].
      rewrite Htr, Hdelta. reflexivity.
    + discriminate H.
Qed.

(** The errors [handle] returns are the collaborators' or the
    unexpected-packet error. *)
Lemma handle_switch_error_not_EOF (ctx : Context) (packet : byte)
    (on : onProcess) (w w' : world) (e : error) :
  eof_is_private ->
  handle_switch ctx packet on w = (Ret (Some e), w') ->
  e <> io_EOF.
Proof.
  intros (_ & Hdata & Hexc & Hinfo & Hcols & Hevents & Hlogs & Hprogress) H.
  unfold handle_switch in H. unfold_go.
  repeat (split_match H; world_simpl).
  all: try discriminate H.
  all: injection H as H _; subst.
  all: try discriminate.
  all: intros ->.
  all: match goal with
       | E : conn_readData ?c ?p ?b ?x = _ |- _ =>
           apply (Hdata c p b x); now rewrite E
       | E : conn_exception ?x = _ |- _ => apply (Hexc x); now rewrite E
       | E : ProfileInfo_Decode ?r ?x = _ |- _ =>
           apply (Hinfo r x); now rewrite E
       | E : TableColumns_Decode ?r ?x = _ |- _ =>
           apply (Hcols r x); now rewrite E
       | E : conn_profileEvents ?c ?x = _ |- _ =>
           apply (Hevents c x); now rewrite E
       | E : conn_logs ?c ?x = _ |- _ => apply (Hlogs c x); now rewrite E
       | E : conn_progress ?x = _ |- _ => apply (Hprogress x); now rewrite E
       end.
Qed.

Lemma handle_error_not_EOF (ctx : Context) (packet : byte) (on : onProcess)
    (w w' : world) (e : error) :
  eof_is_private ->
  handle ctx packet on w = (Ret (Some e), w') ->
  e <> io_EOF.
Proof.
  intros Hprivate H. destruct (rwLock w) eqn:Hlock.
  - rewrite (handle_blocked _ _ _ _ Hlock) in H. discriminate H.
  - destruct (handle_switch ctx packet on (log_event EvLock (set_rwLock true w)))
      as [o1 w1] eqn:Hsw.
    rewrite (@handle_run _ _ _ _ _ _ Hlock Hsw) in H. injection H as -> _.
    exact (handle_switch_error_not_EOF _ _ _ _ Hprivate Hsw).
Qed.

(** [handle] never adds the read of a tag to the trace. *)
Lemma handle_adds_no_tag_read (ctx : Context) (packet : byte) (on : onProcess)
    (w w' : world) (o : outcome (option error)) :
  handle ctx packet on w = (o, w') ->
  exists delta : list event,
    trace w' = trace w ++ delta /\ Forall (fun ev => ~ reads_eos ev) delta.
Proof.
  intros H. destruct (rwLock w) eqn:Hlock.
  - rewrite (handle_blocked _ _ _ _ Hlock) in H. injection H as _ <-.
    exists []. split; [now rewrite app_nil_r | constructor].
  - destruct (handle_shape _ _ _ _ Hlock H) as (mid & Htr & Hmid).
    exists (EvLock :: mid ++ [EvUnlock]). split; [exact Htr|].
    constructor; [discriminate|]. apply Forall_app. split.
    + eapply Forall_impl; [|exact Hmid]. apply inner_event_not_eos.
    + repeat constructor. discriminate.
Qed.

(** One iteration of [firstBlock]: it ends the call with [io.EOF] exactly
    when it has just read the EndOfStream tag. *)
Lemma firstBlock_body_shape (ctx : Context) (on : onProcess) (w w1 : world)
    (o : outcome (step (ptr Block * option error))) :
  eof_is_private ->
  (forall (w0 : world) r, ctx_err_at ctx w0 = Some r -> r <> io_EOF) ->
  firstBlock_body ctx on w = (o, w1) ->
  exists delta : list event,
    trace w1 = trace w ++ delta
    /\ match o with
       | Ret (Break (block, err)) =>
           (err = Some io_EOF ->
            block = None
            /\ delta = [EvReadByte ServerEndOfStream None;
                        EvDebugf "[end of stream]" []])
           /\ (err <> Some io_EOF -> Forall (fun ev => ~ reads_eos ev) delta)
       | _ => Forall (fun ev => ~ reads_eos ev) delta
       end.
Proof.
  intros Hprivate Hreason H.
  destruct (ctx_err_at ctx w) as [reason|] eqn:Hctx.
  { destruct (conn_flush (buffer_PutUVarInt ClientCancel (io w))) as [wErr e2] eqn:Hf.
    destruct (conn_close e2) as [cErr e3] eqn:Hc.
    rewrite (firstBlock_body_cancelled _ on _ Hctx Hf Hc) in H.
    injection H as <- <-. eexists. split; [reflexivity|]. split.
    - intros [= ->]. now elim (Hreason _ _ Hctx).
    - intros _. repeat constructor; discriminate. }
  destruct (reader_ReadByte (io w)) as [[packet [e|]] e1] eqn:Hread.
  { unfold firstBlock_body in H. unfold_go. rewrite Hctx, Hread in H.
    world_simpl. injection H as <- <-. world_simpl.
    eexists. split; [reflexivity|]. split.
    - intros [= ->]. destruct Hprivate as (Hrd & _).
      elim (Hrd (io w)). now rewrite Hread.
    - intros _. repeat constructor. discriminate. }
  destruct (case_of packet [ServerData]) eqn:Hdata.
  { unfold firstBlock_body in H. unfold_go. rewrite Hctx, Hread in H.
    world_simpl. rewrite Hdata in H. world_simpl.
    destruct (conn_readData ctx packet true e1) as [[block err] e2] eqn:Hrd.
    world_simpl. injection H as <- <-. world_simpl. flat_trace.
    apply case_of_In in Hdata. destruct Hdata as [<- | []].
    eexists. split; [reflexivity|]. split.
    - intros ->. destruct Hprivate as (_ & Hdec & _).
      elim (Hdec ctx ServerData true e1). now rewrite Hrd.
    - intros _. repeat constructor; try discriminate.
      intros [= E]. revert E. tags_differ. }
  assert (Hnd : packet <> ServerData).
  { intros ->. unfold case_of in Hdata. cbn [existsb] in Hdata.
    now rewrite byte_eqb_refl in Hdata. }
  destruct (case_of packet [ServerEndOfStream]) eqn:Hcase.
  { apply case_of_In in Hcase. destruct Hcase as [<- | []].
    rewrite (firstBlock_body_eos _ on _ Hctx Hread) in H.
    injection H as <- <-. eexists. split; [reflexivity|]. split.
    - intros _. split; reflexivity.
    - intros Hne. now elim Hne. }
  assert (Hne : packet <> ServerEndOfStream).
  { intros ->. unfold case_of in Hcase. cbn [existsb] in Hcase.
    now rewrite byte_eqb_refl in Hcase. }
  destruct (handle ctx packet on (after_read packet e1 w)) as [o2 w2] eqn:Hh.
  rewrite (firstBlock_body_dispatch _ _ _ Hctx Hread Hnd Hne Hh) in H.
  destruct (handle_adds_no_tag_read _ _ _ _ Hh) as (mid & Htr & Hmid).
  cbn [after_read trace] in Htr.
  assert (Hdelta : Forall (fun ev => ~ reads_eos ev)
                     ([EvReadByte packet None] ++ mid)).
  { apply Forall_app. split; [|exact Hmid].
    repeat constructor. intros [= E]. now apply Hne. }
  injection H as <- <-.
  eexists. split; [rewrite Htr; rewrite <- app_assoc; reflexivity|].
  destruct o2 as [[e|]|x]; try exact Hdelta. split.
  - intros [= ->]. now elim (handle_error_not_EOF _ _ _ _ Hprivate Hh).
  - intros _. exact Hdelta.
Qed.

(** C4, as the code has it: when [firstBlock], after any number of packets
    other than Data that were handled without error, reads the EndOfStream
    tag, it returns a nil block and the value [io.EOF] in the error
    position; that value is not nil and is not the unexpected-packet
    error.  With collaborators and a context that
    never hand back the value [io.EOF] themselves, the outcome is distinct
    from every other one: a call that returns [io.EOF] has just read the
    EndOfStream tag, and a call that returns anything else (a transport,
    decode, exception, unexpected-packet or cancellation error, or a block)
    has not read it. *)
Theorem firstBlock_end_of_stream_returns_io_EOF
    (ctx : Context) (on : onProcess) :
  (forall (w w1 : world) (e1 : Env),
      skips ctx on w w1 ->
      ctx_err_at ctx w1 = None ->
      reader_ReadByte (io w1) = ((ServerEndOfStream, None), e1) ->
      exists fuel : nat, forall n : nat, (fuel <= n)%nat ->
        firstBlock n ctx on w =
          Some (Ret (None, Some io_EOF),
                mkWorld e1 (revision w1) (rwLock w1) (caller w1)
                  (trace w1 ++ [EvReadByte ServerEndOfStream None;
                                EvDebugf "[end of stream]" []])))
  /\ Some io_EOF <> None
  /\ (forall packet : byte,
        io_EOF <> OpError "process" (fmt_Errorf "unexpected packet %d" packet))
  /\ (eof_is_private ->
      (forall (w0 : world) r, ctx_err_at ctx w0 = Some r -> r <> io_EOF) ->
      forall (fuel : nat) (w w' : world) (block : ptr Block) (err : option error),
        firstBlock fuel ctx on w = Some (Ret (block, err), w') ->
        exists pre : list event,
          Forall (fun ev => ~ reads_eos ev) pre
          /\ (err = Some io_EOF ->
              block = None
              /\ trace w' =
                   trace w ++ pre ++ [EvReadByte ServerEndOfStream None;
                                      EvDebugf "[end of stream]" []])
          /\ (err <> Some io_EOF -> trace w' = trace w ++ pre)).
Proof.
  split; [|split; [discriminate|split; [discriminate|]]].
  - intros w w1 e1 Hskips Hctx Hread.
    induction Hskips as [w | w w2 w' packet e0 Hc Hr Hd He Hh _ IH].
    + exists 1%nat. intros [|n] Hn; [lia|].
      unfold firstBlock. cbn [for_loop].
      now rewrite (firstBlock_body_eos _ on _ Hctx Hread).
    + destruct (IH Hctx Hread) as [fuel Hfuel].
      exists (S fuel). intros [|n] Hn; [lia|].
      unfold firstBlock. cbn [for_loop].
      rewrite (firstBlock_body_dispatch _ _ _ Hc Hr Hd He Hh).
      apply Hfuel. lia.
  - intros Hprivate Hreason. unfold firstBlock.
    induction fuel as [|fuel IH]; intros w w' block err H; [discriminate|].
    cbn [for_loop] in H.
    destruct (firstBlock_body ctx on w) as [o w1] eqn:Hbody.
    destruct (@firstBlock_body_shape ctx on w w1 o Hprivate Hreason Hbody)
      as (delta & Htr & Hdelta).
    destruct o as [[|[b0 e0]]|x]; [| |discriminate H].
    + destruct (IH _ _ _ _ H) as (pre & Hpre & Heof & Hother).
      exists (delta ++ pre). split; [now apply Forall_app|]. split.
      * intros E. destruct (Heof E) as (Hb & Ht). split; [exact Hb|].
        rewrite Ht, Htr. now rewrite <- !app_assoc.
      * intros E. rewrite (Hother E), Htr. now rewrite <- app_assoc.
    + injection H as <- <- <-. destruct Hdelta as (Heof & Hother).
      destruct (error_is_EOF_dec e0) as [E | E].
      * destruct (Heof E) as (Hb & Hd). exists []. split; [constructor|]. split.
        -- intros _. split; [exact Hb|]. now rewrite Htr, Hd.
        -- intros Hne. now elim Hne.
      * exists delta. split; [now apply Hother|]. split.
        -- intros E'. now elim E.
        -- intros _. exact Htr.
Qed.

(** ** Further properties of the loops and of the handler *)

(** X1: on a Data tag [firstBlock] returns the pair [c.readData] returned,
    as it is: a block with no rows is returned like any other, an error is
    returned with its block.  No callback runs and the mutex is neither
    taken nor needed. *)
Theorem firstBlock_returns_what_readData_returned
    (fuel : nat) (ctx : Context) (on : onProcess) (w : world)
    (block : ptr Block) (err : option error) (e1 e2 : Env) :
  ctx_err_at ctx w = None ->
  reader_ReadByte (io w) = ((ServerData, None), e1) ->
  conn_readData ctx ServerData true e1 = ((block, err), e2) ->
  firstBlock (S fuel) ctx on w =
    Some (Ret (block, err),
          mkWorld e2 (revision w) (rwLock w) (caller w)
            (trace w ++ [EvReadByte ServerData None;
                         EvReadData ServerData true block err])).
Proof.
  intros Hctx Hread Hdata. unfold firstBlock. cbn [for_loop].
  unfold firstBlock_body. unfold_go. rewrite Hctx, Hread.
  switch_tag. world_simpl. rewrite Hdata. world_simpl.
  f_equal. f_equal. same_world.
Qed.

(** X2: when the tag read fails, the loops return that error unchanged
    ([firstBlock] with a nil block), whatever byte came with it; nothing is
    handled, and [process] has released the mutex it took for the read. *)
Theorem tag_read_error_is_returned_unchanged
    (fuel : nat) (ctx : Context) (on : onProcess) (w : world)
    (packet : byte) (e : error) (e1 : Env) :
  ctx_err_at ctx w = None ->
  reader_ReadByte (io w) = ((packet, Some e), e1) ->
  firstBlock (S fuel) ctx on w =
    Some (Ret (None, Some e),
          mkWorld e1 (revision w) (rwLock w) (caller w)
            (trace w ++ [EvReadByte packet (Some e)]))
  /\ (rwLock w = false ->
      process (S fuel) ctx on w =
        Some (Ret (Some e),
              mkWorld e1 (revision w) false (caller w)
                (trace w ++ [EvLock; EvReadByte packet (Some e); EvUnlock]))).
Proof.
  intros Hctx Hread. split.
  - unfold firstBlock. cbn [for_loop]. unfold firstBlock_body. unfold_go.
    rewrite Hctx, Hread. world_simpl. f_equal.
  - intros Hfree. unfold process. cbn [for_loop]. unfold process_body. unfold_go.
    rewrite Hctx, Hfree. world_simpl. rewrite Hread. world_simpl.
    f_equal. f_equal. same_world.
Qed.

(** X3: an error of a payload decoder aborts [handle]: it is returned
    unchanged, no callback runs, the caller's state stays as it was and the
    mutex is released.  This holds for each of the six decoding cases. *)
Theorem handle_decode_error_propagates
    (ctx : Context) (on : onProcess) (w : world) (e : error) (e1 : Env) :
  rwLock w = false ->
  (forall packet block,
      In packet [ServerData; ServerTotals; ServerExtremes] ->
      conn_readData ctx packet true (io w) = ((block, Some e), e1) ->
      handle ctx packet on w =
        (Ret (Some e),
         mkWorld e1 (revision w) false (caller w)
           (trace w ++ [EvLock; EvReadData packet true block (Some e); EvUnlock])))
  /\ (forall info,
      ProfileInfo_Decode (revision w) (io w) = ((info, Some e), e1) ->
      handle ctx ServerProfileInfo on w =
        (Ret (Some e),
         mkWorld e1 (revision w) false (caller w)
           (trace w ++ [EvLock; EvProfileInfoDecode info (Some e); EvUnlock])))
  /\ (forall info,
      TableColumns_Decode (revision w) (io w) = ((info, Some e), e1) ->
      handle ctx ServerTableColumns on w =
        (Ret (Some e),
         mkWorld e1 (revision w) false (caller w)
           (trace w ++ [EvLock; EvTableColumnsDecode info (Some e); EvUnlock])))
  /\ (forall events,
      conn_profileEvents ctx (io w) = ((events, Some e), e1) ->
      handle ctx ServerProfileEvents on w =
        (Ret (Some e),
         mkWorld e1 (revision w) false (caller w)
           (trace w ++ [EvLock; EvProfileEvents events (Some e); EvUnlock])))
  /\ (forall l,
      conn_logs ctx (io w) = ((l, Some e), e1) ->
      handle ctx ServerLog on w =
        (Ret (Some e),
         mkWorld e1 (revision w) false (caller w)
           (trace w ++ [EvLock; EvLogs l (Some e); EvUnlock])))
  /\ (forall p,
      conn_progress (io w) = ((p, Some e), e1) ->
      handle ctx ServerProgress on w =
        (Ret (Some e),
         mkWorld e1 (revision w) false (caller w)
           (trace w ++ [EvLock; EvProgress p (Some e); EvUnlock]))).
Proof.
  intros Hfree. split; [|split; [|split; [|split; [|split]]]].
  - intros packet block Hin Hdec. apply case_of_In in Hin.
    enter_handle Hfree. rewrite Hin. world_simpl. rewrite Hdec. leave_handle.
  - intros info Hdec. enter_handle Hfree. switch_tag. world_simpl.
    rewrite Hdec. leave_handle.
  - intros info Hdec. enter_handle Hfree. switch_tag. world_simpl.
    rewrite Hdec. leave_handle.
  - intros events Hdec. enter_handle Hfree. switch_tag. world_simpl.
    rewrite Hdec. leave_handle.
  - intros l Hdec. enter_handle Hfree. switch_tag. world_simpl.
    rewrite Hdec. leave_handle.
  - intros p Hdec. enter_handle Hfree. switch_tag. world_simpl.
    rewrite Hdec. leave_handle.
Qed.

(** X4: a profileInfo, profileEvents, logs or progress slot that is set is
    called exactly once per packet, with the value just decoded, after the
    debug line of the packet if it has one; [handle] then returns nil. *)
Theorem set_callback_gets_the_decoded_value_once
    (ctx : Context) (on : onProcess) (w : world) (e1 : Env) :
  rwLock w = false ->
  (forall info f,
      profileInfo on = Some f ->
      ProfileInfo_Decode (revision w) (io w) = ((info, None), e1) ->
      handle ctx ServerProfileInfo on w =
        (Ret None,
         mkWorld e1 (revision w) false (f (Some info) (caller w))
           (trace w ++ [EvLock; EvProfileInfoDecode info None;
                        EvDebugf "[profile info] %s" [DbgProfileInfo (Some info)];
                        EvOnProfileInfo (Some info); EvUnlock])))
  /\ (forall events f,
      profileEvents on = Some f ->
      conn_profileEvents ctx (io w) = ((events, None), e1) ->
      handle ctx ServerProfileEvents on w =
        (Ret None,
         mkWorld e1 (revision w) false (f events (caller w))
           (trace w ++ [EvLock; EvProfileEvents events None;
                        EvOnProfileEvents events; EvUnlock])))
  /\ (forall l f,
      logs on = Some f ->
      conn_logs ctx (io w) = ((l, None), e1) ->
      handle ctx ServerLog on w =
        (Ret None,
         mkWorld e1 (revision w) false (f l (caller w))
           (trace w ++ [EvLock; EvLogs l None; EvOnLogs l; EvUnlock])))
  /\ (forall p f,
      progress on = Some f ->
      conn_progress (io w) = ((p, None), e1) ->
      handle ctx ServerProgress on w =
        (Ret None,
         mkWorld e1 (revision w) false (f p (caller w))
           (trace w ++ [EvLock; EvProgress p None;
                        EvDebugf "[progress] %s" [DbgProgress p];
                        EvOnProgress p; EvUnlock]))).
Proof.
  intros Hfree. split; [|split; [|split]].
  - intros info f Hset Hdec. enter_handle Hfree. switch_tag. world_simpl.
    rewrite Hdec. world_simpl. rewrite Hset. leave_handle.
  - intros events f Hset Hdec. enter_handle Hfree. switch_tag. world_simpl.
    rewrite Hdec. world_simpl. rewrite Hset. leave_handle.
  - intros l f Hset Hdec. enter_handle Hfree. switch_tag. world_simpl.
    rewrite Hdec. world_simpl. rewrite Hset. leave_handle.
  - intros p f Hset Hdec. enter_handle Hfree. switch_tag. world_simpl.
    rewrite Hdec. world_simpl. rewrite Hset. leave_handle.
Qed.

(** X5: a TableColumns packet is decoded and dropped: whatever the callback
    table (all slots may be nil), [handle] returns nil, calls nothing and
    leaves the caller's state as it was. *)
Theorem table_columns_are_decoded_and_dropped
    (ctx : Context) (on : onProcess) (w : world) (info : TableColumns) (e1 : Env) :
  rwLock w = false ->
  TableColumns_Decode (revision w) (io w) = ((info, None), e1) ->
  handle ctx ServerTableColumns on w =
    (Ret None,
     mkWorld e1 (revision w) false (caller w)
       (trace w ++ [EvLock; EvTableColumnsDecode info None;
                    EvDebugf "[table columns]" []; EvUnlock])).
Proof.
  intros Hfree Hdec. enter_handle Hfree. switch_tag. world_simpl.
  rewrite Hdec. leave_handle.
Qed.

(** [handle] on a tag that is none of the nine cases of its switch. *)
Lemma handle_default_case (ctx : Context) (packet : byte) (on : onProcess)
    (w : world) :
  ~ In packet [ServerData; ServerTotals; ServerExtremes; ServerException;
               ServerProfileInfo; ServerTableColumns; ServerProfileEvents;
               ServerLog; ServerProgress] ->
  rwLock w = false ->
  handle ctx packet on w =
    (Ret (Some (OpError "process" (fmt_Errorf "unexpected packet %d" packet))),
     mkWorld (io w) (revision w) false (caller w) (trace w ++ [EvLock; EvUnlock])).
Proof.
  intros Hout Hfree.
  assert (Hne : forall t,
             In t [ServerData; ServerTotals; ServerExtremes; ServerException;
                   ServerProfileInfo; ServerTableColumns; ServerProfileEvents;
                   ServerLog; ServerProgress] -> packet <> t).
  { intros t Ht ->. now apply Hout. }
  enter_handle Hfree. unfold case_of. cbn [existsb].
  repeat match goal with
    | |- context [Byte.eqb packet ?t] =>
        rewrite (@byte_eqb_neq packet t) by (apply Hne; in_list)
    end.
  cbn [orb]. leave_handle.
Qed.

(** X6: the switch of [handle] has no case for EndOfStream: handed that tag,
    as any tag that is none of its nine cases, [handle] consumes nothing and
    returns the unexpected-packet error.  Only the loops know the tag. *)
Theorem handle_rejects_end_of_stream
    (ctx : Context) (on : onProcess) (w : world) :
  rwLock w = false ->
  handle ctx ServerEndOfStream on w =
    (Ret (Some (OpError "process"
                  (fmt_Errorf "unexpected packet %d" ServerEndOfStream))),
     mkWorld (io w) (revision w) false (caller w) (trace w ++ [EvLock; EvUnlock])).
Proof.
  intros Hfree. apply handle_default_case; [|exact Hfree].
  intros Hin. cbn [In] in Hin.
  repeat (destruct Hin as [Hin | Hin];
          [symmetry in Hin; revert Hin; tags_differ|]).
  exact Hin.
Qed.

(** X7: a panic inside [handle] is not turned into an error: the loop that
    dispatched the packet ends with the same panic, in the world [handle]
    left, and returns nothing. *)
Theorem handle_panic_escapes_the_loops
    (fuel : nat) (ctx : Context) (on : onProcess) (w : world)
    (packet : byte) (e1 : Env) (v : string) :
  ctx_err_at ctx w = None ->
  reader_ReadByte (io w) = ((packet, None), e1) ->
  packet <> ServerEndOfStream ->
  (forall w2,
      packet <> ServerData ->
      handle ctx packet on (after_read packet e1 w) = (Abort (Panic v), w2) ->
      firstBlock (S fuel) ctx on w = Some (Abort (Panic v), w2))
  /\ (forall w2,
      rwLock w = false ->
      handle ctx packet on (after_locked_read packet e1 w) = (Abort (Panic v), w2) ->
      process (S fuel) ctx on w = Some (Abort (Panic v), w2)
      /\ rwLock w2 = false).
Proof.
  intros Hctx Hread Heos. split.
  - intros w2 Hd Hh. unfold firstBlock. cbn [for_loop].
    now rewrite (firstBlock_body_dispatch _ _ _ Hctx Hread Hd Heos Hh).
  - intros w2 Hfree Hh. split.
    + unfold process. cbn [for_loop].
      now rewrite (process_body_dispatch _ _ _ Hctx Hfree Hread Heos Hh).
    + destruct (handle_switch ctx packet on
                  (log_event EvLock (set_rwLock true (after_locked_read packet e1 w))))
        as [o1 w1] eqn:Hsw.
      rewrite (@handle_run ctx packet on (after_locked_read packet e1 w) w1 o1
                 eq_refl Hsw) in Hh.
      injection Hh as _ <-. reflexivity.
Qed.

(** X8: cancellation is acted on only at the top of an iteration.  If the
    context is live when an iteration starts and is cancelled by the time
    the packet of that iteration has been handled, the packet is handled in
    full; the next iteration reads nothing, runs [cancel] and returns the
    reason. *)
Theorem cancellation_waits_for_the_packet_in_flight
    (fuel : nat) (ctx : Context) (on : onProcess) (w w2 : world)
    (packet : byte) (reason : error) (wErr cErr : option error) (e1 e2 e3 : Env) :
  ctx_err_at ctx w = None ->
  reader_ReadByte (io w) = ((packet, None), e1) ->
  packet <> ServerEndOfStream ->
  ctx_err_at ctx w2 = Some reason ->
  conn_flush (buffer_PutUVarInt ClientCancel (io w2)) = (wErr, e2) ->
  conn_close e2 = (cErr, e3) ->
  let w' := mkWorld e3 (revision w2) (rwLock w2) (caller w2)
              (trace w2 ++ [EvDebugf "[cancel]" []; EvPutUVarInt ClientCancel;
                            EvFlush wErr; EvClose cErr]) in
  (packet <> ServerData ->
   handle ctx packet on (after_read packet e1 w) = (Ret None, w2) ->
   firstBlock (S (S fuel)) ctx on w = Some (Ret (None, Some reason), w'))
  /\ (rwLock w = false ->
      handle ctx packet on (after_locked_read packet e1 w) = (Ret None, w2) ->
      process (S (S fuel)) ctx on w = Some (Ret (Some reason), w')).
Proof.
  intros Hctx Hread Heos Hdone Hflush Hclose w'. split.
  - intros Hd Hh. unfold firstBlock. cbn [for_loop].
    rewrite (firstBlock_body_dispatch _ _ _ Hctx Hread Hd Heos Hh).
    now rewrite (firstBlock_body_cancelled _ on _ Hdone Hflush Hclose).
  - intros Hfree Hh. unfold process. cbn [for_loop].
    rewrite (process_body_dispatch _ _ _ Hctx Hfree Hread Heos Hh).
    now rewrite (process_body_cancelled _ on _ Hdone Hflush Hclose).
Qed.

(** X9: [process] drains the stream: after any number of packets that are
    handled without error, reading the EndOfStream tag makes it return nil,
    and a call with enough iterations allowed does return. *)
Theorem process_drains_to_end_of_stream
    (ctx : Context) (on : onProcess) (w w1 : world) (e1 : Env) :
  drains ctx on w w1 ->
  ctx_err_at ctx w1 = None ->
  rwLock w1 = false ->
  reader_ReadByte (io w1) = ((ServerEndOfStream, None), e1) ->
  exists fuel : nat, forall n : nat, (fuel <= n)%nat ->
    process n ctx on w =
      Some (Ret None,
            mkWorld e1 (revision w1) false (caller w1)
              (trace w1 ++ [EvLock; EvReadByte ServerEndOfStream None; EvUnlock;
                            EvDebugf "[end of stream]" []])).
Proof.
  intros Hdrains Hctx Hfree Hread.
  induction Hdrains as [w | w w2 w' packet e0 Hc Hf Hr He Hh _ IH].
  - exists 1%nat. intros [|n] Hn; [lia|].
    unfold process. cbn [for_loop].
    now rewrite (process_body_eos _ on _ Hctx Hfree Hread).
  - destruct (IH Hctx Hfree Hread) as [fuel Hfuel].
    exists (S fuel). intros [|n] Hn; [lia|].
    unfold process. cbn [for_loop].
    rewrite (process_body_dispatch _ _ _ Hc Hf Hr He Hh).
    apply Hfuel. lia.
Qed.

(** *** The discipline of the mutex *)

Lemma lock_replay_app (ok : bool -> @event D -> bool) (a b : list (@event D))
    (held : bool) :
  lock_replay ok held (a ++ b) =
    match lock_replay ok held a with
    | Some held' => lock_replay ok held' b
    | None => None
    end.
Proof.
  revert held. induction a as [|ev a IH]; intros held; [reflexivity|].
  cbn [app lock_replay]. destruct (ok held ev); [|reflexivity].
  destruct ev, held; try reflexivity; apply IH.
Qed.

Lemma lock_replay_locked_stretch (ok : bool -> @event D -> bool)
    (mid : list (@event D)) :
  ok false EvLock = true ->
  ok true EvUnlock = true ->
  Forall (fun ev => is_lock_event ev = false /\ ok true ev = true) mid ->
  lock_replay ok false (EvLock :: mid ++ [EvUnlock]) = Some false.
Proof.
  intros Hlock Hunlock Hmid. cbn [lock_replay]. rewrite Hlock.
  induction Hmid as [|ev mid [Hev Hok] _ IH].
  - cbn [app lock_replay]. now rewrite Hunlock.
  - cbn [app lock_replay]. rewrite Hok.
    destruct ev; try discriminate Hev; exact IH.
Qed.

(** Everything [handle] on a free mutex leaves behind. *)
Lemma handle_frame (ctx : Context) (packet : byte) (on : onProcess) (w w' : world)
    (o : outcome (option error)) :
  rwLock w = false ->
  handle ctx packet on w = (o, w') ->
  rwLock w' = false
  /\ revision w' = revision w
  /\ exists mid : list event,
       trace w' = trace w ++ EvLock :: mid ++ [EvUnlock]
       /\ Forall inner_event mid.
Proof.
  intros Hfree H. destruct (handle_shape _ _ _ _ Hfree H) as (mid & Htr & Hmid).
  destruct (handle_switch ctx packet on (log_event EvLock (set_rwLock true w)))
    as [o1 w1] eqn:Hsw.
  rewrite (@handle_run _ _ _ _ _ _ Hfree Hsw) in H. injection H as <- <-.
  destruct (handle_switch_shape _ _ _ _ Hsw) as (_ & _ & Hrev & _).
  world_simpl. split; [reflexivity|]. split; [exact Hrev|].
  exists mid. split; assumption.
Qed.

Lemma handle_replay (ok : bool -> @event D -> bool) (mid : list (@event D)) :
  ok false EvLock = true ->
  ok true EvUnlock = true ->
  (forall ev, inner_event ev -> ok true ev = true) ->
  Forall inner_event mid ->
  lock_replay ok false (EvLock :: mid ++ [EvUnlock]) = Some false.
Proof.
  intros Hlock Hunlock Hok Hmid. apply lock_replay_locked_stretch; try assumption.
  eapply Forall_impl; [|exact Hmid].
  intros ev Hev. split; [apply Hev | now apply Hok].
Qed.

(** One iteration of [process] entered with the mutex free. *)
Lemma process_body_discipline (ctx : Context) (on : onProcess) (w w1 : world)
    (o : outcome (step (option error))) :
  rwLock w = false ->
  process_body ctx on w = (o, w1) ->
  rwLock w1 = false
  /\ revision w1 = revision w
  /\ exists delta : list event,
       trace w1 = trace w ++ delta
       /\ lock_replay reads_need_lock false delta = Some false.
Proof.
  intros Hfree H.
  destruct (ctx_err_at ctx w) as [reason|] eqn:Hctx.
  { destruct (conn_flush (buffer_PutUVarInt ClientCancel (io w))) as [wErr e2] eqn:Hf.
    destruct (conn_close e2) as [cErr e3] eqn:Hc.
    rewrite (process_body_cancelled _ on _ Hctx Hf Hc) in H.
    injection H as <- <-. cbn [rwLock revision trace].
    split; [exact Hfree|]. split; [reflexivity|].
    eexists. split; reflexivity. }
  destruct (reader_ReadByte (io w)) as [[packet [e|]] e1] eqn:Hread.
  { unfold process_body in H. unfold_go. rewrite Hctx, Hfree in H.
    world_simpl. rewrite Hread in H. world_simpl.
    injection H as <- <-. world_simpl. flat_trace.
    split; [reflexivity|]. split; [reflexivity|].
    eexists. split; reflexivity. }
  destruct (case_of packet [ServerEndOfStream]) eqn:Hcase.
  { apply case_of_In in Hcase. destruct Hcase as [<- | []].
    rewrite (process_body_eos _ on _ Hctx Hfree Hread) in H.
    injection H as <- <-. cbn [rwLock revision trace].
    split; [reflexivity|]. split; [reflexivity|].
    eexists. split; reflexivity. }
  assert (Hne : packet <> ServerEndOfStream).
  { intros ->. unfold case_of in Hcase. cbn [existsb] in Hcase.
    now rewrite byte_eqb_refl in Hcase. }
  destruct (handle ctx packet on (after_locked_read packet e1 w)) as [o2 w2] eqn:Hh.
  rewrite (process_body_dispatch _ _ _ Hctx Hfree Hread Hne Hh) in H.
  destruct (handle_frame _ _ _ _
              (eq_refl : rwLock (after_locked_read packet e1 w) = false) Hh)
    as (Hlock & Hrev & mid & Htr & Hmid).
  cbn [after_locked_read trace revision] in Htr, Hrev.
  injection H as _ <-.
  split; [exact Hlock|]. split; [exact Hrev|].
  exists ([EvLock; EvReadByte packet None; EvUnlock] ++ EvLock :: mid ++ [EvUnlock]).
  split; [rewrite Htr; rewrite <- app_assoc; reflexivity|].
  rewrite lock_replay_app.
  replace (lock_replay reads_need_lock false
             [EvLock; EvReadByte packet None; EvUnlock])
    with (Some false) by reflexivity.
  apply handle_replay; try reflexivity; [|exact Hmid].
  intros ev _. unfold reads_need_lock. now destruct (is_reader_event ev).
Qed.

(** One iteration of [firstBlock] entered with the mutex free. *)
Lemma firstBlock_body_discipline (ctx : Context) (on : onProcess) (w w1 : world)
    (o : outcome (step (ptr Block * option error))) :
  rwLock w = false ->
  firstBlock_body ctx on w = (o, w1) ->
  rwLock w1 = false
  /\ revision w1 = revision w
  /\ exists delta : list event,
       trace w1 = trace w ++ delta
       /\ lock_replay tags_read_unlocked false delta = Some false.
Proof.
  intros Hfree H.
  destruct (ctx_err_at ctx w) as [reason|] eqn:Hctx.
  { destruct (conn_flush (buffer_PutUVarInt ClientCancel (io w))) as [wErr e2] eqn:Hf.
    destruct (conn_close e2) as [cErr e3] eqn:Hc.
    rewrite (firstBlock_body_cancelled _ on _ Hctx Hf Hc) in H.
    injection H as <- <-. cbn [rwLock revision trace].
    split; [exact Hfree|]. split; [reflexivity|].
    eexists. split; reflexivity. }
  destruct (reader_ReadByte (io w)) as [[packet [e|]] e1] eqn:Hread.
  { unfold firstBlock_body in H. unfold_go. rewrite Hctx, Hread in H.
    world_simpl. injection H as <- <-. world_simpl.
    split; [exact Hfree|]. split; [reflexivity|].
    eexists. split; reflexivity. }
  destruct (case_of packet [ServerData]) eqn:Hdata.
  { unfold firstBlock_body in H. unfold_go. rewrite Hctx, Hread in H.
    world_simpl. rewrite Hdata in H. world_simpl.
    destruct (conn_readData ctx packet true e1) as [[block err] e2] eqn:Hrd.
    world_simpl. injection H as <- <-. world_simpl. flat_trace.
    split; [exact Hfree|]. split; [reflexivity|].
    eexists. split; reflexivity. }
  assert (Hnd : packet <> ServerData).
  { intros ->. unfold case_of in Hdata. cbn [existsb] in Hdata.
    now rewrite byte_eqb_refl in Hdata. }
  destruct (case_of packet [ServerEndOfStream]) eqn:Hcase.
  { apply case_of_In in Hcase. destruct Hcase as [<- | []].
    rewrite (firstBlock_body_eos _ on _ Hctx Hread) in H.
    injection H as <- <-. cbn [rwLock revision trace].
    split; [exact Hfree|]. split; [reflexivity|].
    eexists. split; reflexivity. }
  assert (Hne : packet <> ServerEndOfStream).
  { intros ->. unfold case_of in Hcase. cbn [existsb] in Hcase.
    now rewrite byte_eqb_refl in Hcase. }
  destruct (handle ctx packet on (after_read packet e1 w)) as [o2 w2] eqn:Hh.
  rewrite (firstBlock_body_dispatch _ _ _ Hctx Hread Hnd Hne Hh) in H.
  destruct (handle_frame _ _ _ _
              (Hfree : rwLock (after_read packet e1 w) = false) Hh)
    as (Hlock & Hrev & mid & Htr & Hmid).
  cbn [after_read trace revision] in Htr, Hrev.
  injection H as _ <-.
  split; [exact Hlock|]. split; [exact Hrev|].
  exists ([EvReadByte packet None] ++ EvLock :: mid ++ [EvUnlock]).
  split; [rewrite Htr; rewrite <- app_assoc; reflexivity|].
  rewrite lock_replay_app.
  replace (lock_replay tags_read_unlocked false [EvReadByte packet None])
    with (Some false) by reflexivity.
  apply handle_replay; try reflexivity; [|exact Hmid].
  intros ev [_ Hnot]. unfold tags_read_unlocked. now rewrite Hnot.
Qed.

(** The discipline of a loop follows from that of its body. *)
Lemma for_loop_discipline {R} (ok : bool -> @event D -> bool)
    (body : @M D User (step R)) :
  (forall w w1 o,
      rwLock w = false -> body w = (o, w1) ->
      rwLock w1 = false /\ revision w1 = revision w
      /\ exists delta, trace w1 = trace w ++ delta
                       /\ lock_replay ok false delta = Some false) ->
  forall (fuel : nat) (w w' : world) (o : outcome R),
    rwLock w = false ->
    for_loop fuel body w = Some (o, w') ->
    rwLock w' = false /\ revision w' = revision w
    /\ exists delta, trace w' = trace w ++ delta
                     /\ lock_replay ok false delta = Some false.
Proof.
  intros Hbody. induction fuel as [|fuel IH]; intros w w' o Hfree H; [discriminate|].
  cbn [for_loop] in H.
  destruct (body w) as [ob w1] eqn:Hb.
  destruct (Hbody _ _ _ Hfree Hb) as (Hl1 & Hr1 & d1 & Ht1 & Hd1).
  destruct ob as [[|r]|x].
  - destruct (IH _ _ _ Hl1 H) as (Hl2 & Hr2 & d2 & Ht2 & Hd2).
    split; [exact Hl2|]. split; [congruence|].
    exists (d1 ++ d2). split.
    + rewrite Ht2, Ht1. now rewrite <- app_assoc.
    + now rewrite lock_replay_app, Hd1.
  - injection H as <- <-. repeat split; try assumption. now exists d1.
  - injection H as <- <-. repeat split; try assumption. now exists d1.
Qed.

(** X10: a call of [process] that starts with the mutex free and returns
    leaves the mutex free and the revision as it was; it never locked a held
    mutex nor unlocked a free one, and every read from the connection (tags
    and payloads) was made while holding the mutex. *)
Theorem process_reads_only_under_the_lock
    (fuel : nat) (ctx : Context) (on : onProcess) (w w' : world)
    (r : option error) :
  rwLock w = false ->
  process fuel ctx on w = Some (Ret r, w') ->
  rwLock w' = false
  /\ revision w' = revision w
  /\ exists delta : list event,
       trace w' = trace w ++ delta
       /\ lock_replay reads_need_lock false delta = Some false.
Proof.
  unfold process. intros Hfree H. revert Hfree H.
  apply for_loop_discipline.
  intros w0 w1 o0. apply process_body_discipline.
Qed.

(** X11: a call of [firstBlock] that starts with the mutex free and ends
    leaves the mutex free and the revision as it was; the mutex is taken
    and released in turn, and every tag was read while not holding it. *)
Theorem firstBlock_reads_tags_without_the_lock
    (fuel : nat) (ctx : Context) (on : onProcess) (w w' : world)
    (o : outcome (ptr Block * option error)) :
  rwLock w = false ->
  firstBlock fuel ctx on w = Some (o, w') ->
  rwLock w' = false
  /\ revision w' = revision w
  /\ exists delta : list event,
       trace w' = trace w ++ delta
       /\ lock_replay tags_read_unlocked false delta = Some false.
Proof.
  unfold firstBlock. apply for_loop_discipline.
  intros w0 w1 o0. apply firstBlock_body_discipline.
Qed.

(** X12: whatever error [handle] returns for a packet, the loop that
    dispatched it returns that same error at once ([firstBlock] with a nil
    block) and reads nothing more. *)
Theorem handle_error_ends_the_loops
    (fuel : nat) (ctx : Context) (on : onProcess) (w : world)
    (packet : byte) (e : error) (e1 : Env) :
  ctx_err_at ctx w = None ->
  reader_ReadByte (io w) = ((packet, None), e1) ->
  packet <> ServerEndOfStream ->
  (forall w2,
      packet <> ServerData ->
      handle ctx packet on (after_read packet e1 w) = (Ret (Some e), w2) ->
      firstBlock (S fuel) ctx on w = Some (Ret (None, Some e), w2))
  /\ (forall w2,
      rwLock w = false ->
      handle ctx packet on (after_locked_read packet e1 w) = (Ret (Some e), w2) ->
      process (S fuel) ctx on w = Some (Ret (Some e), w2)).
Proof.
  intros Hctx Hread Heos. split.
  - intros w2 Hd Hh. unfold firstBlock. cbn [for_loop].
    now rewrite (firstBlock_body_dispatch _ _ _ Hctx Hread Hd Heos Hh).
  - intros w2 Hfree Hh. unfold process. cbn [for_loop].
    now rewrite (process_body_dispatch _ _ _ Hctx Hfree Hread Heos Hh).
Qed.

End Properties.

(** ** The theorems at work on the concrete connection *)

Import Wire.

Lemma wire_keeps_io_EOF_private : eof_is_private (D := driver).
Proof.
  unfold eof_is_private. cbn.
  unfold ReadByte, exception, payload.
  repeat split; intros; destruct (wire e); discriminate.
Qed.

Lemma cancel_always_closes_close_error_first_witness :
  cancel failing = (Ret (Some close_failed), failing_cancelled)
  /\ cancel flush_fails = (Ret (Some broken_pipe), flush_fails_cancelled).
Proof.
  split.
  - destruct (@cancel_always_closes_close_error_first proto driver
                (list string) failing (Some broken_pipe) (Some close_failed)
                (mkEnv [x05] [3%N] (Some broken_pipe) (Some close_failed) false)
                (mkEnv [x05] [3%N] (Some broken_pipe) (Some close_failed) true)
                eq_refl eq_refl) as (r & Hrun & Hclose & _).
    rewrite (Hclose _ eq_refl) in Hrun. exact Hrun.
  - destruct (@cancel_always_closes_close_error_first proto driver
                (list string) flush_fails (Some broken_pipe) None
                (mkEnv [x05] [3%N] (Some broken_pipe) None false)
                (mkEnv [x05] [3%N] (Some broken_pipe) None true)
                eq_refl eq_refl) as (r & Hrun & _ & Hopen).
    rewrite (Hopen eq_refl) in Hrun. exact Hrun.
Defined.

Lemma cancelled_loop_runs_cancel_and_returns_reason_witness :
  firstBlock 1 cancelled all_set failing
    = Some (Ret (None, Some context_Canceled), failing_cancelled)
  /\ process 1 cancelled all_set failing
    = Some (Ret (Some context_Canceled), failing_cancelled).
Proof.
  exact (@cancelled_loop_runs_cancel_and_returns_reason proto driver
           (list string) 0 cancelled all_set failing context_Canceled
           (Some broken_pipe) (Some close_failed)
           (mkEnv [x05] [3%N] (Some broken_pipe) (Some close_failed) false)
           (mkEnv [x05] [3%N] (Some broken_pipe) (Some close_failed) true)
           eq_refl eq_refl eq_refl).
Defined.

Lemma cancelled_loop_drops_cancel_errors_witness :
  exists w1 w2 : world,
    firstBlock 1 cancelled all_set failing
      = Some (Ret (None, Some context_Canceled), w1)
    /\ process 1 cancelled all_set failing
      = Some (Ret (Some context_Canceled), w2)
    /\ debug_lines (trace w1) = [("[cancel]"%string, [])]
    /\ debug_lines (trace w2) = [("[cancel]"%string, [])]
    /\ caller w1 = []
    /\ caller w2 = [].
Proof.
  exact (@cancelled_loop_drops_cancel_errors proto driver (list string)
           0 cancelled all_set failing context_Canceled eq_refl).
Defined.

(** C9 as stated fails: the caller of either loop sees the same result, the
    same debug log and the same callback effects whether the flush and the
    close of the cancellation failed or succeeded, although [cancel] itself
    did return the close error. *)
Lemma cancel_errors_reach_nobody :
  cancel failing = (Ret (Some close_failed), failing_cancelled)
  /\ cancel healthy = (Ret None, healthy_cancelled)
  /\ firstBlock 1 cancelled all_set failing
      = Some (Ret (None, Some context_Canceled), failing_cancelled)
  /\ firstBlock 1 cancelled all_set healthy
      = Some (Ret (None, Some context_Canceled), healthy_cancelled)
  /\ process 1 cancelled all_set failing
      = Some (Ret (Some context_Canceled), failing_cancelled)
  /\ process 1 cancelled all_set healthy
      = Some (Ret (Some context_Canceled), healthy_cancelled)
  /\ debug_lines (trace failing_cancelled) = debug_lines (trace healthy_cancelled)
  /\ debug_lines (trace failing_cancelled) = [("[cancel]"%string, [])]
  /\ caller failing_cancelled = caller healthy_cancelled.
Proof. repeat split. Qed.

Lemma handle_data_callback_iff_rows_witness :
  handle Background x01 all_set (start [x00] None None)
    = (Ret None,
       mkWorld (mkEnv [] [] None None false) 54460%N false []
         [EvLock; EvReadData x01 true (Some x00) None; EvUnlock])
  /\ handle Background x07 all_set (start [x03] None None)
    = (Ret None,
       mkWorld (mkEnv [] [] None None false) 54460%N false ["data"%string]
         [EvLock; EvReadData x07 true (Some x03) None; EvOnData (Some x03);
          EvUnlock]).
Proof.
  split.
  - refine (proj1 (@handle_data_callback_iff_rows proto driver (list string)
                     Background x01 all_set (start [x00] None None) (Some x00)
                     (mkEnv [] [] None None false) _ eq_refl eq_refl) eq_refl).
    left. reflexivity.
  - refine (proj2 (@handle_data_callback_iff_rows proto driver (list string)
                     Background x07 all_set (start [x03] None None) (Some x03)
                     (mkEnv [] [] None None false) _ eq_refl eq_refl)
              (fun _ u => u ++ ["data"%string]) eq_refl eq_refl).
    right. left. reflexivity.
Defined.

Lemma handle_unexpected_packet_witness :
  let err := OpError "process" (errorString "unexpected packet 99") in
  handle Background x63 all_set (start [x63; x07] None None)
    = (Ret (Some err),
       mkWorld (mkEnv [x63; x07] [] None None false) 54460%N false []
         [EvLock; EvUnlock])
  /\ unexpected_packet_of err = Some ("process"%string, x63)
  /\ firstBlock 1 Background all_set (start [x63; x07] None None)
     = Some (Ret (None, Some err),
             mkWorld (mkEnv [x07] [] None None false) 54460%N false []
               [EvReadByte x63 None; EvLock; EvUnlock])
  /\ process 1 Background all_set (start [x63; x07] None None)
     = Some (Ret (Some err),
             mkWorld (mkEnv [x07] [] None None false) 54460%N false []
               [EvLock; EvReadByte x63 None; EvUnlock; EvLock; EvUnlock]).
Proof.
  assert (Hout : ~ In x63 (server_tags (P := proto))).
  { simpl. intuition discriminate. }
  destruct (@handle_unexpected_packet proto driver (list string)
              Background x63 all_set (start [x63; x07] None None) Hout eq_refl)
    as (Hhandle & Hback & Hloops).
  destruct (Hloops 0%nat (mkEnv [x07] [] None None false) eq_refl eq_refl)
    as (Hfirst & Hprocess).
  exact (conj Hhandle (conj Hback (conj Hfirst Hprocess))).
Defined.

Lemma unset_callback_panics_except_data_witness :
  handle Background x06 none_set (start [x09] None None)
    = (Abort (Panic nil_func_call),
       mkWorld (mkEnv [] [] None None false) 54460%N false []
         [EvLock; EvProfileInfoDecode x09 None;
          EvDebugf "[profile info] %s" [DbgProfileInfo (Some x09)]; EvUnlock])
  /\ handle Background x0e none_set (start [x09] None None)
    = (Abort (Panic nil_func_call),
       mkWorld (mkEnv [] [] None None false) 54460%N false []
         [EvLock; EvProfileEvents [x09] None; EvUnlock])
  /\ handle Background x0a none_set (start [x09] None None)
    = (Abort (Panic nil_func_call),
       mkWorld (mkEnv [] [] None None false) 54460%N false []
         [EvLock; EvLogs [x09] None; EvUnlock])
  /\ handle Background x03 none_set (start [x09] None None)
    = (Abort (Panic nil_func_call),
       mkWorld (mkEnv [] [] None None false) 54460%N false []
         [EvLock; EvProgress (Some x09) None;
          EvDebugf "[progress] %s" [DbgProgress (Some x09)]; EvUnlock])
  /\ handle Background x01 none_set (start [x09] None None)
    = (Ret None,
       mkWorld (mkEnv [] [] None None false) 54460%N false []
         [EvLock; EvReadData x01 true (Some x09) None; EvUnlock]).
Proof.
  destruct (@unset_callback_panics_except_data proto driver (list string)
              Background none_set (start [x09] None None) eq_refl)
    as (Hinfo & Hevents & Hlogs & Hprogress & Hdata).
  split; [|split; [|split; [|split]]].
  - exact (Hinfo x09 (mkEnv [] [] None None false) eq_refl eq_refl).
  - exact (Hevents [x09] (mkEnv [] [] None None false) eq_refl eq_refl).
  - exact (Hlogs [x09] (mkEnv [] [] None None false) eq_refl eq_refl).
  - exact (Hprogress (Some x09) (mkEnv [] [] None None false) eq_refl eq_refl).
  - refine (Hdata x01 (Some x09) (mkEnv [] [] None None false) eq_refl _ eq_refl).
    left. reflexivity.
Defined.

Lemma exception_packet_ends_the_stream_witness :
  handle Background x02 all_set (start [x3c; x05] None None)
    = (Ret (Some (errorString "code: 60")),
       mkWorld (mkEnv [x05] [] None None false) 54460%N false []
         [EvLock; EvException (Some (errorString "code: 60")); EvUnlock])
  /\ firstBlock 1 Background all_set (start [x02; x3c; x05] None None)
     = Some (Ret (None, Some (errorString "code: 60")),
             mkWorld (mkEnv [x05] [] None None false) 54460%N false []
               [EvReadByte x02 None; EvLock;
                EvException (Some (errorString "code: 60")); EvUnlock])
  /\ process 1 Background all_set (start [x02; x3c; x05] None None)
     = Some (Ret (Some (errorString "code: 60")),
             mkWorld (mkEnv [x05] [] None None false) 54460%N false []
               [EvLock; EvReadByte x02 None; EvUnlock; EvLock;
                EvException (Some (errorString "code: 60")); EvUnlock]).
Proof.
  split.
  - exact (proj1 (@exception_packet_ends_the_stream proto driver (list string)
                    Background all_set (start [x3c; x05] None None) eq_refl)
             (Some (errorString "code: 60")) (mkEnv [x05] [] None None false)
             eq_refl).
  - exact (proj2 (@exception_packet_ends_the_stream proto driver (list string)
                    Background all_set (start [x02; x3c; x05] None None) eq_refl)
             0%nat (errorString "code: 60") (mkEnv [x3c; x05] [] None None false)
             (mkEnv [x05] [] None None false) eq_refl eq_refl eq_refl).
Defined.

Lemma handle_holds_lock_throughout_and_releases_witness :
  let w' := mkWorld (mkEnv [] [] None None false) 54460%N false ["logs"%string]
              [EvLock; EvLogs [x07] None; EvOnLogs [x07]; EvUnlock] in
  rwLock w' = false
  /\ Ret (None : option error) <> Abort Blocked
  /\ exists mid : list event,
       trace w' = [] ++ EvLock :: mid ++ [EvUnlock]
       /\ Forall (fun ev => is_lock_event ev = false) mid
       /\ under_lock false (EvLock :: mid ++ [EvUnlock]) = true.
Proof.
  exact (@handle_holds_lock_throughout_and_releases proto driver (list string)
           Background x0a all_set (start [x07] None None) _ (Ret None)
           eq_refl eq_refl).
Defined.

Lemma firstBlock_end_of_stream_returns_io_EOF_witness :
  (exists fuel : nat, forall n : nat, (fuel <= n)%nat ->
     firstBlock n Background all_set (start [x0b; x00; x05] None None)
     = Some (Ret (None, Some io_EOF),
             mkWorld (mkEnv [] [] None None false) 54460%N false []
               [EvReadByte x0b None; EvLock; EvTableColumnsDecode x00 None;
                EvDebugf "[table columns]" []; EvUnlock;
                EvReadByte x05 None; EvDebugf "[end of stream]" []]))
  /\ (exists pre : list event,
        Forall (fun ev => ~ reads_eos ev) pre
        /\ (Some io_EOF = Some io_EOF ->
            (None : ptr byte) = None
            /\ [EvReadByte x0b None; EvLock; EvTableColumnsDecode x00 None;
                EvDebugf "[table columns]" []; EvUnlock;
                EvReadByte x05 None; EvDebugf "[end of stream]" []]
               = [] ++ pre ++ [EvReadByte x05 None; EvDebugf "[end of stream]" []])
        /\ (Some io_EOF <> Some io_EOF ->
            [EvReadByte x0b None; EvLock; EvTableColumnsDecode x00 None;
             EvDebugf "[table columns]" []; EvUnlock;
             EvReadByte x05 None; EvDebugf "[end of stream]" []]
            = [] ++ pre))
  /\ (exists pre : list event,
        Forall (fun ev => ~ reads_eos ev) pre
        /\ (Some read_EOF = Some io_EOF ->
            (None : ptr byte) = None
            /\ [EvReadByte x0b None; EvLock; EvTableColumnsDecode x00 None;
                EvDebugf "[table columns]" []; EvUnlock;
                EvReadByte x00 (Some read_EOF)]
               = [] ++ pre ++ [EvReadByte x05 None; EvDebugf "[end of stream]" []])
        /\ (Some read_EOF <> Some io_EOF ->
            [EvReadByte x0b None; EvLock; EvTableColumnsDecode x00 None;
             EvDebugf "[table columns]" []; EvUnlock;
             EvReadByte x00 (Some read_EOF)]
            = [] ++ pre)).
Proof.
  assert (Hreason : forall (w0 : world (User := list string)) r,
             ctx_err_at Background w0 = Some r -> r <> io_EOF).
  { intros w0 r H. discriminate H. }
  destruct (@firstBlock_end_of_stream_returns_io_EOF proto driver (list string)
              Background all_set) as (Hsentinel & _ & _ & Hdistinct).
  split; [|split].
  - refine (Hsentinel (start [x0b; x00; x05] None None)
              (mkWorld (mkEnv [x05] [] None None false) 54460%N false []
                 [EvReadByte x0b None; EvLock; EvTableColumnsDecode x00 None;
                  EvDebugf "[table columns]" []; EvUnlock])
              (mkEnv [] [] None None false) _ eq_refl eq_refl).
    refine (@skips_packet proto driver (list string) Background all_set
              (start [x0b; x00; x05] None None)
              (mkWorld (mkEnv [x05] [] None None false) 54460%N false []
                 [EvReadByte x0b None; EvLock; EvTableColumnsDecode x00 None;
                  EvDebugf "[table columns]" []; EvUnlock])
              _ x0b (mkEnv [x00; x05] [] None None false)
              eq_refl eq_refl _ _ eq_refl (skips_none _ _ _));
      discriminate.
  - exact (Hdistinct wire_keeps_io_EOF_private Hreason 2%nat
             (start [x0b; x00; x05] None None)
             (mkWorld (mkEnv [] [] None None false) 54460%N false []
                [EvReadByte x0b None; EvLock; EvTableColumnsDecode x00 None;
                 EvDebugf "[table columns]" []; EvUnlock;
                 EvReadByte x05 None; EvDebugf "[end of stream]" []])
             None (Some io_EOF) eq_refl).
  - exact (Hdistinct wire_keeps_io_EOF_private Hreason 2%nat
             (start [x0b; x00] None None)
             (mkWorld (mkEnv [] [] None None false) 54460%N false []
                [EvReadByte x0b None; EvLock; EvTableColumnsDecode x00 None;
                 EvDebugf "[table columns]" []; EvUnlock;
                 EvReadByte x00 (Some read_EOF)])
             None (Some read_EOF) eq_refl).
Defined.

(** C4 as stated fails.  The end-of-stream outcome is a value in the error
    position that is not nil: to a caller that tests the error against nil
    it is an error.  And a stream without Data that ends in EndOfStream does
    not give it when a packet before the end is an Exception: the call
    returns the exception. *)
Lemma end_of_stream_outcome_is_not_distinct :
  firstBlock 1 Background all_set (start [x05] None None)
    = Some (Ret (None, Some io_EOF),
            mkWorld (mkEnv [] [] None None false) 54460%N false []
              [EvReadByte x05 None; EvDebugf "[end of stream]" []])
  /\ Some io_EOF <> None
  /\ firstBlock 2 Background all_set (start [x02; x3c; x05] None None)
    = Some (Ret (None, Some (errorString "code: 60")),
            mkWorld (mkEnv [x05] [] None None false) 54460%N false []
              [EvReadByte x02 None; EvLock;
               EvException (Some (errorString "code: 60")); EvUnlock]).
Proof.
  split; [reflexivity|]. split; [discriminate|]. reflexivity.
Qed.

Lemma process_succeeds_iff_end_of_stream_witness :
  process 1 Background all_set (start [x05] None None)
    = Some (Ret None,
            mkWorld (mkEnv [] [] None None false) 54460%N false []
              [EvLock; EvReadByte x05 None; EvUnlock;
               EvDebugf "[end of stream]" []])
  /\ (exists pre : list event,
        Forall (fun ev => ~ reads_eos ev) pre
        /\ [EvLock; EvReadByte x0a None; EvUnlock; EvLock; EvLogs [x07] None;
            EvOnLogs [x07]; EvUnlock; EvLock; EvReadByte x05 None; EvUnlock;
            EvDebugf "[end of stream]" []]
           = [] ++ pre ++ [EvLock; EvReadByte x05 None; EvUnlock;
                           EvDebugf "[end of stream]" []])
  /\ (exists pre : list event,
        Forall (fun ev => ~ reads_eos ev) pre
        /\ [EvLock; EvReadByte x0a None; EvUnlock; EvLock;
            EvLogs [] (Some io_ErrUnexpectedEOF); EvUnlock]
           = [] ++ pre).
Proof.
  split; [|split].
  - exact (proj1 (@process_succeeds_iff_end_of_stream proto driver (list string)
                    Background all_set)
             0%nat (start [x05] None None) (mkEnv [] [] None None false)
             eq_refl eq_refl eq_refl).
  - exact (proj2 (@process_succeeds_iff_end_of_stream proto driver (list string)
                    Background all_set)
             3%nat (start [x0a; x07; x05] None None)
             (mkWorld (mkEnv [] [] None None false) 54460%N false ["logs"%string]
                [EvLock; EvReadByte x0a None; EvUnlock; EvLock; EvLogs [x07] None;
                 EvOnLogs [x07]; EvUnlock; EvLock; EvReadByte x05 None; EvUnlock;
                 EvDebugf "[end of stream]" []])
             None eq_refl).
  - exact (proj2 (@process_succeeds_iff_end_of_stream proto driver (list string)
                    Background all_set)
             3%nat (start [x0a] None None)
             (mkWorld (mkEnv [] [] None None false) 54460%N false []
                [EvLock; EvReadByte x0a None; EvUnlock; EvLock;
                 EvLogs [] (Some io_ErrUnexpectedEOF); EvUnlock])
             (Some io_ErrUnexpectedEOF) eq_refl).
Defined.

(** *** The further properties at work *)

Lemma firstBlock_returns_what_readData_returned_witness :
  firstBlock 1 Background none_set (start [x01; x00; x05] None None)
  = Some (Ret (Some x00, None),
          mkWorld (mkEnv [x05] [] None None false) 54460%N false []
            [EvReadByte x01 None; EvReadData x01 true (Some x00) None]).
Proof.
  exact (@firstBlock_returns_what_readData_returned proto driver (list string)
           0 Background none_set (start [x01; x00; x05] None None)
           (Some x00) None (mkEnv [x00; x05] [] None None false)
           (mkEnv [x05] [] None None false) eq_refl eq_refl eq_refl).
Defined.

Lemma tag_read_error_is_returned_unchanged_witness :
  firstBlock 1 Background all_set (start [] None None)
  = Some (Ret (None, Some read_EOF),
          mkWorld (mkEnv [] [] None None false) 54460%N false []
            [EvReadByte x00 (Some read_EOF)])
  /\ process 1 Background all_set (start [] None None)
  = Some (Ret (Some read_EOF),
          mkWorld (mkEnv [] [] None None false) 54460%N false []
            [EvLock; EvReadByte x00 (Some read_EOF); EvUnlock]).
Proof.
  destruct (@tag_read_error_is_returned_unchanged proto driver (list string)
              0 Background all_set (start [] None None) x00 read_EOF
              (mkEnv [] [] None None false) eq_refl eq_refl)
    as (Hfirst & Hprocess).
  exact (conj Hfirst (Hprocess eq_refl)).
Defined.

Lemma handle_decode_error_propagates_witness :
  let short := mkWorld (mkEnv [] [] None None false) 54460%N false [] in
  handle Background x08 all_set (start [] None None)
    = (Ret (Some io_ErrUnexpectedEOF),
       short [EvLock; EvReadData x08 true None (Some io_ErrUnexpectedEOF); EvUnlock])
  /\ handle Background x06 all_set (start [] None None)
    = (Ret (Some io_ErrUnexpectedEOF),
       short [EvLock; EvProfileInfoDecode x00 (Some io_ErrUnexpectedEOF); EvUnlock])
  /\ handle Background x0b all_set (start [] None None)
    = (Ret (Some io_ErrUnexpectedEOF),
       short [EvLock; EvTableColumnsDecode x00 (Some io_ErrUnexpectedEOF); EvUnlock])
  /\ handle Background x0e all_set (start [] None None)
    = (Ret (Some io_ErrUnexpectedEOF),
       short [EvLock; EvProfileEvents [] (Some io_ErrUnexpectedEOF); EvUnlock])
  /\ handle Background x0a all_set (start [] None None)
    = (Ret (Some io_ErrUnexpectedEOF),
       short [EvLock; EvLogs [] (Some io_ErrUnexpectedEOF); EvUnlock])
  /\ handle Background x03 all_set (start [] None None)
    = (Ret (Some io_ErrUnexpectedEOF),
       short [EvLock; EvProgress None (Some io_ErrUnexpectedEOF); EvUnlock]).
Proof.
  destruct (@handle_decode_error_propagates proto driver (list string)
              Background all_set (start [] None None) io_ErrUnexpectedEOF
              (mkEnv [] [] None None false) eq_refl)
    as (Hdata & Hinfo & Hcols & Hevents & Hlogs & Hprogress).
  refine (conj (Hdata x08 None _ eq_refl)
            (conj (Hinfo x00 eq_refl)
               (conj (Hcols x00 eq_refl)
                  (conj (Hevents [] eq_refl)
                     (conj (Hlogs [] eq_refl) (Hprogress None eq_refl)))))).
  right. right. left. reflexivity.
Defined.

Lemma set_callback_gets_the_decoded_value_once_witness :
  let got (name : string) := mkWorld (mkEnv [] [] None None false) 54460%N false [name] in
  handle Background x06 all_set (start [x09] None None)
    = (Ret None,
       got "profileInfo"%string
         [EvLock; EvProfileInfoDecode x09 None;
          EvDebugf "[profile info] %s" [DbgProfileInfo (Some x09)];
          EvOnProfileInfo (Some x09); EvUnlock])
  /\ handle Background x0e all_set (start [x09] None None)
    = (Ret None,
       got "profileEvents"%string
         [EvLock; EvProfileEvents [x09] None; EvOnProfileEvents [x09]; EvUnlock])
  /\ handle Background x0a all_set (start [x09] None None)
    = (Ret None,
       got "logs"%string [EvLock; EvLogs [x09] None; EvOnLogs [x09]; EvUnlock])
  /\ handle Background x03 all_set (start [x09] None None)
    = (Ret None,
       got "progress"%string
         [EvLock; EvProgress (Some x09) None;
          EvDebugf "[progress] %s" [DbgProgress (Some x09)];
          EvOnProgress (Some x09); EvUnlock]).
Proof.
  destruct (@set_callback_gets_the_decoded_value_once proto driver (list string)
              Background all_set (start [x09] None None)
              (mkEnv [] [] None None false) eq_refl)
    as (Hinfo & Hevents & Hlogs & Hprogress).
  exact (conj (Hinfo x09 _ eq_refl eq_refl)
           (conj (Hevents [x09] _ eq_refl eq_refl)
              (conj (Hlogs [x09] _ eq_refl eq_refl)
                 (Hprogress (Some x09) _ eq_refl eq_refl)))).
Defined.

Lemma table_columns_are_decoded_and_dropped_witness :
  handle Background x0b none_set (start [x09] None None)
  = (Ret None,
     mkWorld (mkEnv [] [] None None false) 54460%N false []
       [EvLock; EvTableColumnsDecode x09 None; EvDebugf "[table columns]" [];
        EvUnlock]).
Proof.
  exact (@table_columns_are_decoded_and_dropped proto driver (list string)
           Background none_set (start [x09] None None) x09
           (mkEnv [] [] None None false) eq_refl eq_refl).
Defined.

Lemma handle_rejects_end_of_stream_witness :
  handle Background x05 all_set (start [x07] None None)
  = (Ret (Some (OpError "process" (errorString "unexpected packet 5"))),
     mkWorld (mkEnv [x07] [] None None false) 54460%N false []
       [EvLock; EvUnlock]).
Proof.
  exact (@handle_rejects_end_of_stream proto driver (list string)
           Background all_set (start [x07] None None) eq_refl).
Defined.

Lemma handle_panic_escapes_the_loops_witness :
  firstBlock 1 Background none_set (start [x0a; x07; x05] None None)
  = Some (Abort (Panic nil_func_call),
          mkWorld (mkEnv [x05] [] None None false) 54460%N false []
            [EvReadByte x0a None; EvLock; EvLogs [x07] None; EvUnlock])
  /\ process 1 Background none_set (start [x0a; x07; x05] None None)
  = Some (Abort (Panic nil_func_call),
          mkWorld (mkEnv [x05] [] None None false) 54460%N false []
            [EvLock; EvReadByte x0a None; EvUnlock; EvLock; EvLogs [x07] None;
             EvUnlock]).
Proof.
  assert (Heos : x0a <> ServerEndOfStream (Proto := proto)) by discriminate.
  assert (Hdata : x0a <> ServerData (Proto := proto)) by discriminate.
  destruct (@handle_panic_escapes_the_loops proto driver (list string)
              0 Background none_set (start [x0a; x07; x05] None None) x0a
              (mkEnv [x07; x05] [] None None false) nil_func_call
              eq_refl eq_refl Heos)
    as (Hfirst & Hprocess).
  exact (conj (Hfirst _ Hdata eq_refl) (proj1 (Hprocess _ eq_refl eq_refl))).
Defined.

Lemma cancellation_waits_for_the_packet_in_flight_witness :
  firstBlock 2 (CancelledAt 3 context_Canceled) all_set
    (start [x0a; x07; x05] None None)
  = Some (Ret (None, Some context_Canceled),
          mkWorld (mkEnv [x05] [3%N] None None true) 54460%N false ["logs"%string]
            [EvReadByte x0a None; EvLock; EvLogs [x07] None; EvOnLogs [x07];
             EvUnlock; EvDebugf "[cancel]" []; EvPutUVarInt 3; EvFlush None;
             EvClose None])
  /\ process 2 (CancelledAt 3 context_Canceled) all_set
    (start [x0a; x07; x05] None None)
  = Some (Ret (Some context_Canceled),
          mkWorld (mkEnv [x05] [3%N] None None true) 54460%N false ["logs"%string]
            [EvLock; EvReadByte x0a None; EvUnlock; EvLock; EvLogs [x07] None;
             EvOnLogs [x07]; EvUnlock; EvDebugf "[cancel]" []; EvPutUVarInt 3;
             EvFlush None; EvClose None]).
Proof.
  assert (Heos : x0a <> ServerEndOfStream (Proto := proto)) by discriminate.
  assert (Hdata : x0a <> ServerData (Proto := proto)) by discriminate.
  split.
  - exact (proj1 (@cancellation_waits_for_the_packet_in_flight proto driver
                    (list string) 0 (CancelledAt 3 context_Canceled) all_set
                    (start [x0a; x07; x05] None None)
                    (mkWorld (mkEnv [x05] [] None None false) 54460%N false
                       ["logs"%string]
                       [EvReadByte x0a None; EvLock; EvLogs [x07] None;
                        EvOnLogs [x07]; EvUnlock])
                    x0a context_Canceled None None
                    (mkEnv [x07; x05] [] None None false)
                    (mkEnv [x05] [3%N] None None false)
                    (mkEnv [x05] [3%N] None None true)
                    eq_refl eq_refl Heos eq_refl eq_refl eq_refl)
             Hdata eq_refl).
  - exact (proj2 (@cancellation_waits_for_the_packet_in_flight proto driver
                    (list string) 0 (CancelledAt 3 context_Canceled) all_set
                    (start [x0a; x07; x05] None None)
                    (mkWorld (mkEnv [x05] [] None None false) 54460%N false
                       ["logs"%string]
                       [EvLock; EvReadByte x0a None; EvUnlock; EvLock;
                        EvLogs [x07] None; EvOnLogs [x07]; EvUnlock])
                    x0a context_Canceled None None
                    (mkEnv [x07; x05] [] None None false)
                    (mkEnv [x05] [3%N] None None false)
                    (mkEnv [x05] [3%N] None None true)
                    eq_refl eq_refl Heos eq_refl eq_refl eq_refl)
             eq_refl eq_refl).
Defined.

Lemma process_drains_to_end_of_stream_witness :
  exists fuel : nat, forall n : nat, (fuel <= n)%nat ->
    process n Background all_set (start [x0a; x07; x05] None None)
    = Some (Ret None,
            mkWorld (mkEnv [] [] None None false) 54460%N false ["logs"%string]
              [EvLock; EvReadByte x0a None; EvUnlock; EvLock; EvLogs [x07] None;
               EvOnLogs [x07]; EvUnlock; EvLock; EvReadByte x05 None; EvUnlock;
               EvDebugf "[end of stream]" []]).
Proof.
  refine (@process_drains_to_end_of_stream proto driver (list string)
            Background all_set (start [x0a; x07; x05] None None)
            (mkWorld (mkEnv [x05] [] None None false) 54460%N false
               ["logs"%string]
               [EvLock; EvReadByte x0a None; EvUnlock; EvLock; EvLogs [x07] None;
                EvOnLogs [x07]; EvUnlock])
            (mkEnv [] [] None None false) _ eq_refl eq_refl eq_refl).
  refine (@drains_packet proto driver (list string) Background all_set
            (start [x0a; x07; x05] None None)
            (mkWorld (mkEnv [x05] [] None None false) 54460%N false
               ["logs"%string]
               [EvLock; EvReadByte x0a None; EvUnlock; EvLock; EvLogs [x07] None;
                EvOnLogs [x07]; EvUnlock])
            _ x0a (mkEnv [x07; x05] [] None None false)
            eq_refl eq_refl eq_refl _ eq_refl (drains_none _ _ _)).
  discriminate.
Defined.

Lemma process_reads_only_under_the_lock_witness :
  let w' := mkWorld (mkEnv [] [] None None false) 54460%N false ["logs"%string]
              [EvLock; EvReadByte x0a None; EvUnlock; EvLock; EvLogs [x07] None;
               EvOnLogs [x07]; EvUnlock; EvLock; EvReadByte x05 None; EvUnlock;
               EvDebugf "[end of stream]" []] in
  rwLock w' = false
  /\ revision w' = 54460%N
  /\ exists delta : list event,
       trace w' = [] ++ delta
       /\ lock_replay reads_need_lock false delta = Some false.
Proof.
  exact (@process_reads_only_under_the_lock proto driver (list string)
           3 Background all_set (start [x0a; x07; x05] None None)
           (mkWorld (mkEnv [] [] None None false) 54460%N false ["logs"%string]
              [EvLock; EvReadByte x0a None; EvUnlock; EvLock; EvLogs [x07] None;
               EvOnLogs [x07]; EvUnlock; EvLock; EvReadByte x05 None; EvUnlock;
               EvDebugf "[end of stream]" []])
           None eq_refl eq_refl).
Defined.

Lemma firstBlock_reads_tags_without_the_lock_witness :
  let w' := mkWorld (mkEnv [] [] None None false) 54460%N false
              ([] : list string)
              [EvReadByte x0b None; EvLock; EvTableColumnsDecode x00 None;
               EvDebugf "[table columns]" []; EvUnlock; EvReadByte x01 None;
               EvReadData x01 true (Some x03) None] in
  rwLock w' = false
  /\ revision w' = 54460%N
  /\ exists delta : list event,
       trace w' = [] ++ delta
       /\ lock_replay tags_read_unlocked false delta = Some false.
Proof.
  exact (@firstBlock_reads_tags_without_the_lock proto driver (list string)
           3 Background all_set (start [x0b; x00; x01; x03] None None)
           (mkWorld (mkEnv [] [] None None false) 54460%N false []
              [EvReadByte x0b None; EvLock; EvTableColumnsDecode x00 None;
               EvDebugf "[table columns]" []; EvUnlock; EvReadByte x01 None;
               EvReadData x01 true (Some x03) None])
           (Ret (Some x03, None)) eq_refl eq_refl).
Defined.

Lemma handle_error_ends_the_loops_witness :
  firstBlock 1 Background all_set (start [x0a] None None)
  = Some (Ret (None, Some io_ErrUnexpectedEOF),
          mkWorld (mkEnv [] [] None None false) 54460%N false []
            [EvReadByte x0a None; EvLock;
             EvLogs [] (Some io_ErrUnexpectedEOF); EvUnlock])
  /\ process 1 Background all_set (start [x0a] None None)
  = Some (Ret (Some io_ErrUnexpectedEOF),
          mkWorld (mkEnv [] [] None None false) 54460%N false []
            [EvLock; EvReadByte x0a None; EvUnlock; EvLock;
             EvLogs [] (Some io_ErrUnexpectedEOF); EvUnlock]).
Proof.
  assert (Heos : x0a <> ServerEndOfStream (Proto := proto)) by discriminate.
  assert (Hdata : x0a <> ServerData (Proto := proto)) by discriminate.
  destruct (@handle_error_ends_the_loops proto driver (list string)
              0 Background all_set (start [x0a] None None) x0a
              io_ErrUnexpectedEOF (mkEnv [] [] None None false)
              eq_refl eq_refl Heos)
    as (Hfirst & Hprocess).
  exact (conj (Hfirst _ Hdata eq_refl) (Hprocess _ eq_refl eq_refl)).
Defined.
